(** * sqlx-tx: the transactional executor

    A shallow embedding of [tx.go] (both shipped variants: the one configured
    by functional options and the one configured by a [*Config] argument) and
    the properties of its begin / cleanup / run / resolve protocol.

    Modelling choices, all taken from the Go source:
    - an [error] value is either a leaf error or the [*fmt.wrapError] that
      [fmt.Errorf] builds for a format with one [%w] verb;
    - [*sql.TxOptions] is a pointer: options structs live in a heap and the
      [With...] options mutate them in place;
    - [*sqlx.DB] and [*sqlx.Tx] are external collaborators: their methods are
      fields of the [Driver] class, total functions on an abstract store that
      return an error or nil;
    - the unit of work either returns [(T, error)] or panics with a non-nil
      payload;
    - every call the executor itself makes on the handles is recorded in a
      trace, so that "attempted exactly once" is a statement about that
      trace. *)

From stdpp Require Import base option list gmap strings.

(** ** Go errors and [fmt.Errorf] *)

Module Go.

(** [errorString] stands for any leaf error (as made by [errors.New]);
    [wrapError] is [fmt.wrapError{msg, err}]. *)
Inductive error : Type :=
| errorString (s : string)
| wrapError (msg : string) (err : error).

(** The [Error() string] method. *)
Definition Error (e : error) : string :=
  match e with
  | errorString s => s
  | wrapError msg _ => msg
  end.

(** [errors.Unwrap]. *)
Definition Unwrap (e : error) : option error :=
  match e with
  | errorString _ => None
  | wrapError _ err => Some err
  end.

(** [fmt.Errorf(prefix + "%w", err)]: the operand is printed with its
    [Error] text and kept as the wrapped cause. *)
Definition Errorf_w (prefix : string) (err : error) : error :=
  wrapError (prefix +:+ Error err) err.

(** [fmt.Errorf(a + "%v" + b + "%w" + c, v, err)]: [v] is only printed,
    [err] is printed and kept as the wrapped cause. *)
Definition Errorf_v_w (a : string) (v : error) (b : string) (err : error)
    (c : string) : error :=
  wrapError (a +:+ Error v +:+ b +:+ Error err +:+ c) err.

End Go.
Export Go.

(** ** [database/sql] transaction options, behind a pointer *)

Module sql.

(** [type IsolationLevel int] *)
Definition IsolationLevel : Type := Z.

Record TxOptions : Type := mkTxOptions {
  Isolation : IsolationLevel;
  ReadOnly : bool
}.

(** [&sql.TxOptions{}] *)
Definition zeroTxOptions : TxOptions :=
  {| Isolation := 0%Z; ReadOnly := false |}.

End sql.

Definition loc : Type := positive.
Abbreviation heap := (gmap loc sql.TxOptions).

(** The memory the program runs in: the heap of options structs and the
    state [W] of the database behind the handles. *)
Record Store (W : Type) : Type := mkStore {
  st_heap : heap;
  st_world : W
}.
Arguments mkStore {W} _ _.
Arguments st_heap {W} _.
Arguments st_world {W} _.

Definition set_heap {W} (h : heap) (s : Store W) : Store W :=
  {| st_heap := h; st_world := st_world s |}.

(** [&sql.TxOptions{}]: a fresh cell holding the zero struct. *)
Definition alloc {W} (v : sql.TxOptions) (s : Store W) : loc * Store W :=
  let l := fresh (dom (st_heap s)) in
  (l, set_heap (<[l := v]> (st_heap s)) s).

(** [p.field = x] through a non-nil pointer [p]. *)
Definition store_at {W} (l : loc) (f : sql.TxOptions → sql.TxOptions)
    (s : Store W) : Store W :=
  set_heap (alter f l (st_heap s)) s.

(** ** The external collaborators *)

Class Driver : Type := {
  World : Type;
  DB : Type;
  Tx : Type;
  Ctx : Type;
  (** non-nil values of type [any]: what [recover()] hands to the deferred
      closure when the unit of work panicked *)
  Any : Type;
  (** [context.Background()] *)
  Background : Ctx;
  (** [db.BeginTxx(ctx, opts)] *)
  BeginTxx : DB → Ctx → option loc → Store World → Store World * (Tx + error);
  (** [tx.ExecContext(ctx, query)], its [sql.Result] dropped *)
  ExecContext : Tx → Ctx → string → Store World → Store World * option error;
  (** [tx.Rollback()] *)
  Rollback : Tx → Store World → Store World * option error;
  (** [tx.Commit()] *)
  Commit : Tx → Store World → Store World * option error
}.

(** The zero value of a Go type. *)
Class Zero (T : Type) : Type := zero : T.

Section Runtime.
Context `{Driver}.

(** What the executor does on the handles, in order. *)
Inductive Event : Type :=
| EvBegin (db : DB) (ctx : Ctx) (opts : option loc)
| EvExec (tx : Tx) (ctx : Ctx) (query : string)
| EvCall (tx : Tx)
| EvRollback (tx : Tx)
| EvCommit (tx : Tx).

Definition is_commit (e : Event) : bool :=
  match e with EvCommit _ => true | _ => false end.
Definition is_rollback (e : Event) : bool :=
  match e with EvRollback _ => true | _ => false end.
Definition is_exec (e : Event) : bool :=
  match e with EvExec _ _ _ => true | _ => false end.
Definition is_call (e : Event) : bool :=
  match e with EvCall _ => true | _ => false end.

Definition count (p : Event → bool) (tr : list Event) : nat :=
  length (filter (λ e, p e = true) tr).
Global Arguments count : simpl never.

(** How a Go call with results [(T, error)] ends. *)
Inductive Outcome (T : Type) : Type :=
| Returned (result : T) (err : option error)
| Panicked (p : Any).
Global Arguments Returned {T} _ _.
Global Arguments Panicked {T} _.

(** [type TxFunc[T any] func(tx *sqlx.Tx) (T, error)] *)
Definition TxFunc (T : Type) : Type :=
  Tx → Store World → Store World * Outcome T.

(** Computations of the executor: they transform the store and emit the
    events of the calls they make. *)
Definition M (A : Type) : Type := Store World → A * Store World * list Event.

Global Instance M_ret : MRet M := λ A a s, (a, s, []).

Global Instance M_bind : MBind M := λ A B k m s,
  let '(a, s1, t1) := m s in
  let '(b, s2, t2) := k a s1 in
  (b, s2, t1 ++ t2).

Definition emit {A} (ev : Event) (f : Store World → Store World * A) : M A :=
  λ s, let '(s', a) := f s in (a, s', [ev]).

Definition beginTxx (db : DB) (ctx : Ctx) (opts : option loc) : M (Tx + error) :=
  emit (EvBegin db ctx opts) (BeginTxx db ctx opts).
Definition execContext (tx : Tx) (ctx : Ctx) (query : string) : M (option error) :=
  emit (EvExec tx ctx query) (ExecContext tx ctx query).
Definition rollback (tx : Tx) : M (option error) :=
  emit (EvRollback tx) (Rollback tx).
Definition commit (tx : Tx) : M (option error) :=
  emit (EvCommit tx) (Commit tx).
Definition call {T} (txFunc : TxFunc T) (tx : Tx) : M (Outcome T) :=
  emit (EvCall tx) (txFunc tx).

End Runtime.

(** [type Config struct], declared alike by both variants. *)
Record Config : Type := mkConfig {
  TxOptions : option loc;
  DeallocateAll : bool
}.

(** [&Config{}] *)
Definition zeroConfig : Config :=
  {| TxOptions := None; DeallocateAll := false |}.

(** ** First variant: configuration by functional options *)

Module Options.
Section Options.
Context `{Driver}.

(** [type ConfigOption], a function of a [*Config]. The struct it receives is the
    executor's own local one, so the option is a function of that
    struct's value and of the store. *)
Definition ConfigOption : Type :=
  Config → Store World → Config * Store World.

Definition WithDeallocateAll : ConfigOption :=
  λ c s, ({| TxOptions := TxOptions c; DeallocateAll := true |}, s).

Definition WithTxOptions (opts : option loc) : ConfigOption :=
  λ c s, ({| TxOptions := opts; DeallocateAll := DeallocateAll c |}, s).

(** First the [if c.TxOptions == nil] block, then the assignment through
    the pointer, which is non-nil by then. *)
Definition WithIsolationLevel (level : sql.IsolationLevel) : ConfigOption :=
  λ c s,
    let '(c, s) :=
      match TxOptions c with
      | None =>
          let '(l, s) := alloc sql.zeroTxOptions s in
          ({| TxOptions := Some l; DeallocateAll := DeallocateAll c |}, s)
      | Some _ => (c, s)
      end in
    match TxOptions c with
    | Some l =>
        (c, store_at l (λ o, {| sql.Isolation := level;
                                sql.ReadOnly := sql.ReadOnly o |}) s)
    | None => (c, s)
    end.

Definition WithReadOnly : ConfigOption :=
  λ c s,
    let '(c, s) :=
      match TxOptions c with
      | None =>
          let '(l, s) := alloc sql.zeroTxOptions s in
          ({| TxOptions := Some l; DeallocateAll := DeallocateAll c |}, s)
      | Some _ => (c, s)
      end in
    match TxOptions c with
    | Some l =>
        (c, store_at l (λ o, {| sql.Isolation := sql.Isolation o;
                                sql.ReadOnly := true |}) s)
    | None => (c, s)
    end.

(** [for _, option := range options { option(config) }] *)
Fixpoint applyOptions (options : list ConfigOption) (config : Config)
    (s : Store World) : Config * Store World :=
  match options with
  | [] => (config, s)
  | option :: options =>
      let '(config, s) := option config s in
      applyOptions options config s
  end.

Context {T : Type} `{Zero T}.

(** The deferred closure. It sees how the body ended (the named results
    [result] and [err], or the recovered panic) and decides the outcome. *)
Definition deferred (tx : Tx) (o : Outcome T) : M (Outcome T) :=
  match o with
  | Panicked p =>
      rollback tx ;;
      mret (Panicked p)
  | Returned result (Some err) =>
      rollbackErr ← rollback tx;
      match rollbackErr with
      | Some rollbackErr =>
          mret (Returned result
                  (Some (Errorf_v_w "transaction rollback failed: " rollbackErr
                           " (original error: " err ")")))
      | None => mret (Returned result (Some err))
      end
  | Returned result None =>
      err ← commit tx;
      match err with
      | Some err =>
          mret (Returned result
                  (Some (Errorf_w "failed to commit transaction: " err)))
      | None => mret (Returned result None)
      end
  end.

(** The named result [result] holds the zero value until [txFunc]
    returns. *)
Definition ExecuteContext (ctx : Ctx) (db : DB) (txFunc : TxFunc T)
    (options : list ConfigOption) : M (Outcome T) :=
  λ s,
    let '(config, s) := applyOptions options zeroConfig s in
    (r ← beginTxx db ctx (TxOptions config);
     match r with
     | inr err =>
         mret (Returned zero
                 (Some (Errorf_w "failed to begin transaction: " err)))
     | inl tx =>
         let body : M (Outcome T) := (o ← call txFunc tx; deferred tx o) in
         if DeallocateAll config then
           deallocErr ← execContext tx ctx "DEALLOCATE ALL";
           match deallocErr with
           | Some deallocErr =>
               rollback tx ;;
               mret (Returned zero
                       (Some (Errorf_w
                                "failed to deallocate prepared statements: "
                                deallocErr)))
           | None => body
           end
         else body
     end) s.

Definition Execute (db : DB) (txFunc : TxFunc T) : M (Outcome T) :=
  ExecuteContext Background db txFunc [].

End Options.
End Options.

(** ** Second variant: configuration by a [*Config] argument *)

Module Struct.
Section Struct.
Context `{Driver} {T : Type} `{Zero T}.

(** The deferred closure of this variant's [ExecuteContext]. *)
Definition deferred (tx : Tx) (o : Outcome T) : M (Outcome T) :=
  match o with
  | Panicked p =>
      rollback tx ;;
      mret (Panicked p)
  | Returned result (Some err) =>
      rollbackErr ← rollback tx;
      match rollbackErr with
      | Some rollbackErr =>
          mret (Returned result
                  (Some (Errorf_v_w "transaction rollback failed: " rollbackErr
                           " (original error: " err ")")))
      | None => mret (Returned result (Some err))
      end
  | Returned result None =>
      err ← commit tx;
      match err with
      | Some err =>
          mret (Returned result
                  (Some (Errorf_w "failed to commit transaction: " err)))
      | None => mret (Returned result None)
      end
  end.

(** [config] is [None] for a nil pointer, else the struct it points to. *)
Definition ExecuteContext (ctx : Ctx) (db : DB) (config : option Config)
    (txFunc : TxFunc T) : M (Outcome T) :=
  let config := match config with None => zeroConfig | Some c => c end in
  r ← beginTxx db ctx (TxOptions config);
  match r with
  | inr err =>
      mret (Returned zero
              (Some (Errorf_w "failed to begin transaction: " err)))
  | inl tx =>
      let body : M (Outcome T) := (o ← call txFunc tx; deferred tx o) in
      if DeallocateAll config then
        deallocErr ← execContext tx ctx "DEALLOCATE ALL";
        match deallocErr with
        | Some deallocErr =>
            rollback tx ;;
            mret (Returned zero
                    (Some (Errorf_w
                             "failed to deallocate prepared statements: "
                             deallocErr)))
        | None => body
        end
      else body
  end.

Definition Execute (db : DB) (txFunc : TxFunc T) : M (Outcome T) :=
  ExecuteContext Background db None txFunc.

Definition ExecuteWithConfig (db : DB) (config : option Config)
    (txFunc : TxFunc T) : M (Outcome T) :=
  ExecuteContext Background db config txFunc.

End Struct.
End Struct.

(** ** Reading the result of a run *)

Section Runs.
Context `{Driver} {A : Type}.

Definition outcome (r : A * Store World * list Event) : A := r.1.1.
Definition final (r : A * Store World * list Event) : Store World := r.1.2.
Definition trace (r : A * Store World * list Event) : list Event := r.2.

End Runs.

(** ** Vocabulary of the protocol *)

Section Protocol.
Context `{Driver} {T : Type}.

(** The events between the begin and the unit of work: the cleanup statement
    when the flag is set, nothing otherwise. *)
Definition cleanup_events (config : Config) (ctx : Ctx) (tx : Tx) : list Event :=
  if DeallocateAll config then [EvExec tx ctx "DEALLOCATE ALL"] else [].

(** The cleanup step went through: either the flag is off and the store is
    untouched, or the statement answered without error. *)
Definition cleanup_ok (config : Config) (ctx : Ctx) (tx : Tx)
    (s1 s2 : Store World) : Prop :=
  if DeallocateAll config
  then ExecContext tx ctx "DEALLOCATE ALL" s1 = (s2, None)
  else s2 = s1.

(** A run opened the transaction with a nil [*sql.TxOptions] in context
    [ctx] and never executed a statement of its own on the handle. *)
Definition begun_with_defaults (ctx : Ctx) (db : DB)
    (r : Outcome T * Store World * list Event) : Prop :=
  (∃ rest, trace r = EvBegin db ctx None :: rest)
  ∧ count is_exec (trace r) = 0.

(** The options that build a given [Config] struct from the empty one. *)
Definition options_of (config : Config) : list Options.ConfigOption :=
  Options.WithTxOptions (TxOptions config)
    :: (if DeallocateAll config then [Options.WithDeallocateAll] else []).

End Protocol.

(** ** A scripted database, in the manner of the mock of [tx_test.go]

    The world is the script: for each operation of the handles, the error it
    answers with (or none). The only transaction handle is [1]. *)

Record Script : Type := mkScript {
  begin_err : option error;
  exec_err : option error;
  rollback_err : option error;
  commit_err : option error
}.

Definition answer {A} (f : Script → A) (s : Store Script) : Store Script * A :=
  (s, f (st_world s)).

#[local] Instance mock : Driver := {|
  World := Script;
  DB := unit;
  Tx := nat;
  Ctx := unit;
  Any := string;
  Background := tt;
  BeginTxx _ _ _ :=
    answer (λ w, match begin_err w with Some e => inr e | None => inl 1 end);
  ExecContext _ _ _ := answer exec_err;
  Rollback _ := answer rollback_err;
  Commit _ := answer commit_err
|}.

#[local] Instance Z_zero : Zero Z := 0%Z.

Definition script (b e r c : option error) : Store Script :=
  {| st_heap := ∅; st_world := mkScript b e r c |}.

(** [func(tx *sqlx.Tx) (int, error) { return 1, nil }] *)
Definition returns_one : TxFunc Z := λ _ s, (s, Returned 1%Z None).

(** [func(tx *sqlx.Tx) (int, error) { return 7, errors.New("insufficient funds") }] *)
Definition fails_with_seven : TxFunc Z :=
  λ _ s, (s, Returned 7%Z (Some (errorString "insufficient funds"))).

(** [func(tx *sqlx.Tx) (int, error) { panic("boom") }] *)
Definition panics_boom : TxFunc Z := λ _ s, (s, Panicked "boom"%string).

(** The scenarios of the specification, run on the scripted database. *)

Definition bad_connection : error := errorString "driver: bad connection".

(** Scenario A, with the cleanup flag set. *)
Definition run_success : Outcome Z * Store Script * list Event :=
  Options.ExecuteContext tt tt returns_one [Options.WithDeallocateAll]
    (script None None None None).

(** Scenario B, the rollback failing as well. *)
Definition run_work_error : Outcome Z * Store Script * list Event :=
  Options.ExecuteContext tt tt fails_with_seven []
    (script None None (Some bad_connection) None).

(** Scenario C. *)
Definition run_panic : Outcome Z * Store Script * list Event :=
  Options.ExecuteContext tt tt panics_boom []
    (script None None None None).

(** Scenario D. *)
Definition run_commit_failure : Outcome Z * Store Script * list Event :=
  Options.ExecuteContext tt tt returns_one []
    (script None None None (Some bad_connection)).

Definition run_begin_failure : Outcome Z * Store Script * list Event :=
  Options.ExecuteContext tt tt returns_one []
    (script (Some bad_connection) None None None).

Definition run_cleanup_failure : Outcome Z * Store Script * list Event :=
  Options.ExecuteContext tt tt returns_one [Options.WithDeallocateAll]
    (script None (Some bad_connection) None None).

(** The outcome invariant in the words of the specification: whenever the
    executor returns a non-nil error, the result is the zero value. *)
Definition zero_result_on_error : Prop :=
  ∀ (D : Driver) (T : Type) (Z : Zero T) (ctx : Ctx) (db : DB)
    (txFunc : TxFunc T) (options : list Options.ConfigOption)
    (s : Store World) (result : T) (err : error),
    outcome (Options.ExecuteContext ctx db txFunc options s)
      = Returned result (Some err) →
    result = zero.

(** ** The first release of the package

    The non-generic [Execute] that the package shipped first: it begins with
    [db.Beginx()], always runs "DEALLOCATE ALL" with [tx.Exec], and keeps
    [tx], [err] and [res] in local variables, its results being unnamed.
    [T] stands for [any], whose zero value is nil. *)

Module Legacy.
Section Legacy.
Context `{Driver} {T : Type} `{Zero T}.

(** [db.Beginx()]: sqlx begins through [database/sql]'s [Begin], which is
    [BeginTx(context.Background(), nil)]. *)
Definition beginx (db : DB) : M (Tx + error) :=
  beginTxx db Background None.

(** [tx.Exec(query)]: [ExecContext(context.Background(), query)]. *)
Definition exec (tx : Tx) (query : string) : M (option error) :=
  execContext tx Background query.

(** The deferred closure. It is given what [recover()] returns and the
    local variable [err]; it either re-panics ([inl]) or ends with a new
    value of the local [err] ([inr]). *)
Definition deferred (tx : Tx) (recovered : option Any) (err : option error)
    : M (Any + option error) :=
  match recovered with
  | Some p =>
      rollback tx ;;
      mret (inl p)
  | None =>
      match err with
      | Some err =>
          rollbackErr ← rollback tx;
          match rollbackErr with
          | Some rollbackErr =>
              mret (inr (Some (Errorf_v_w "transaction rollback failed: "
                                 rollbackErr " (original error: " err ")")))
          | None => mret (inr (Some err))
          end
      | None =>
          err ← commit tx;
          match err with
          | Some err =>
              mret (inr (Some (Errorf_w "failed to commit transaction: " err)))
          | None => mret (inr None)
          end
      end
  end.

(** [return res, err] copies both values into the unnamed results before
    the deferred closure runs, so what the closure then assigns to the local
    [err] stays in the frame. After a panic the local [err] is still the nil
    that [Beginx] left, and the results are their zero values. *)
Definition Execute (db : DB) (txFunc : TxFunc T) : M (Outcome T) :=
  r ← beginx db;
  match r with
  | inr err =>
      mret (Returned zero
              (Some (Errorf_w "failed to begin transaction: " err)))
  | inl tx =>
      deallocErr ← exec tx "DEALLOCATE ALL";
      match deallocErr with
      | Some deallocErr =>
          rollback tx ;;
          mret (Returned zero
                  (Some (Errorf_w "failed to deallocate prepared statements: "
                           deallocErr)))
      | None =>
          o ← call txFunc tx;
          match o with
          | Panicked p =>
              d ← deferred tx (Some p) None;
              match d with
              | inl p => mret (Panicked p)
              | inr _ => mret (Returned zero None)
              end
          | Returned res err =>
              d ← deferred tx None err;
              match d with
              | inl p => mret (Panicked p)
              | inr _ => mret (Returned res err)
              end
          end
      end
  end.

End Legacy.
End Legacy.

(** ** The shipped options, and the shapes a run can take *)

Section Shapes.
Context `{Driver} {T : Type} `{Zero T}.

(** The four options the package ships, as data. *)
Inductive Builtin : Type :=
| BDeallocateAll
| BTxOptions (opts : option loc)
| BIsolationLevel (level : sql.IsolationLevel)
| BReadOnly.

Definition builtin (b : Builtin) : Options.ConfigOption :=
  match b with
  | BDeallocateAll => Options.WithDeallocateAll
  | BTxOptions opts => Options.WithTxOptions opts
  | BIsolationLevel level => Options.WithIsolationLevel level
  | BReadOnly => Options.WithReadOnly
  end.

Definition is_dealloc (b : Builtin) : bool :=
  match b with BDeallocateAll => true | _ => false end.

Definition is_begin (e : Event) : bool :=
  match e with EvBegin _ _ _ => true | _ => false end.

(** [config] after [if config == nil { config = &Config{} }]. *)
Definition or_default (config : option Config) : Config :=
  match config with None => zeroConfig | Some c => c end.

(** What is reported when the unit of work failed with [e] and the rollback
    answered [rb]. *)
Definition after_rollback (e : error) (rb : option error) : error :=
  match rb with
  | None => e
  | Some rb =>
      Errorf_v_w "transaction rollback failed: " rb " (original error: " e ")"
  end.

(** What is reported when the commit answered [ce]. *)
Definition after_commit (ce : option error) : option error :=
  Errorf_w "failed to commit transaction: " <$> ce.

(** The five shapes of a run of [ExecuteContext] under configuration
    [config] from store [s]: the begin fails; the cleanup fails; the unit of
    work panics; it returns an error; it returns without error. *)
Inductive Run (ctx : Ctx) (db : DB) (config : Config) (txFunc : TxFunc T)
    (s : Store World) : Outcome T * Store World * list Event → Prop :=
| RunBeginFailed s1 beginErr :
    BeginTxx db ctx (TxOptions config) s = (s1, inr beginErr) →
    Run ctx db config txFunc s
      (Returned zero (Some (Errorf_w "failed to begin transaction: " beginErr)),
       s1, [EvBegin db ctx (TxOptions config)])
| RunCleanupFailed s1 tx s2 deallocErr s3 rb :
    BeginTxx db ctx (TxOptions config) s = (s1, inl tx) →
    DeallocateAll config = true →
    ExecContext tx ctx "DEALLOCATE ALL" s1 = (s2, Some deallocErr) →
    Rollback tx s2 = (s3, rb) →
    Run ctx db config txFunc s
      (Returned zero
         (Some (Errorf_w "failed to deallocate prepared statements: "
                  deallocErr)),
       s3,
       [EvBegin db ctx (TxOptions config); EvExec tx ctx "DEALLOCATE ALL";
        EvRollback tx])
| RunPanicked s1 tx s2 s3 p s4 rb :
    BeginTxx db ctx (TxOptions config) s = (s1, inl tx) →
    cleanup_ok config ctx tx s1 s2 →
    txFunc tx s2 = (s3, Panicked p) →
    Rollback tx s3 = (s4, rb) →
    Run ctx db config txFunc s
      (Panicked p, s4,
       EvBegin db ctx (TxOptions config)
         :: cleanup_events config ctx tx ++ [EvCall tx; EvRollback tx])
| RunWorkFailed s1 tx s2 s3 v e s4 rb :
    BeginTxx db ctx (TxOptions config) s = (s1, inl tx) →
    cleanup_ok config ctx tx s1 s2 →
    txFunc tx s2 = (s3, Returned v (Some e)) →
    Rollback tx s3 = (s4, rb) →
    Run ctx db config txFunc s
      (Returned v (Some (after_rollback e rb)), s4,
       EvBegin db ctx (TxOptions config)
         :: cleanup_events config ctx tx ++ [EvCall tx; EvRollback tx])
| RunWorkDone s1 tx s2 s3 v s4 ce :
    BeginTxx db ctx (TxOptions config) s = (s1, inl tx) →
    cleanup_ok config ctx tx s1 s2 →
    txFunc tx s2 = (s3, Returned v None) →
    Commit tx s3 = (s4, ce) →
    Run ctx db config txFunc s
      (Returned v (after_commit ce), s4,
       EvBegin db ctx (TxOptions config)
         :: cleanup_events config ctx tx ++ [EvCall tx; EvCommit tx]).

End Shapes.

(** * Properties *)

Lemma prefix_append (p s : string) : String.prefix p (p +:+ s) = true.
Proof.
  induction p as [|a p IH]; simpl.
  - by destruct s.
  - destruct (Ascii.ascii_dec a a); [exact IH | done].
Qed.

Ltac run_executor :=
  unfold Options.ExecuteContext, Struct.ExecuteContext,
    Options.deferred, Struct.deferred,
    mbind, M_bind, mret, M_ret,
    beginTxx, execContext, rollback, commit, call, emit,
    outcome, final, trace; simpl.

Section ExecutorFacts.
Context `{Driver} {T : Type} `{Zero T}.
Implicit Types (ctx : Ctx) (db : DB) (tx : Tx) (txFunc : TxFunc T).
Implicit Types (options : list Options.ConfigOption) (s : Store World).

Import Options.

(** C6. When [BeginTxx] fails, [ExecuteContext] returns the zero result and
  the begin error wrapped behind the text "failed to begin transaction: ",
  the cause retrievable by [Unwrap]; the only call the executor made is the
  begin itself: no cleanup statement, no unit of work, no commit and no
  rollback. *)
Theorem ExecuteContext_begin_failure ctx db txFunc options s config s0 s1 beginErr :
applyOptions options zeroConfig s = (config, s0) →
BeginTxx db ctx (TxOptions config) s0 = (s1, inr beginErr) →
∃ err,
  ExecuteContext ctx db txFunc options s
    = (Returned zero (Some err), s1, [EvBegin db ctx (TxOptions config)])
  ∧ Unwrap err = Some beginErr
  ∧ Error err = "failed to begin transaction: " +:+ Error beginErr
  ∧ String.prefix "failed to begin transaction: " (Error err) = true.
Proof.
intros Hcfg Hbegin.
eexists. split.
- run_executor. rewrite Hcfg, Hbegin. reflexivity.
- repeat split. apply prefix_append.
Qed.

(** C7. With [DeallocateAll] set, when the statement "DEALLOCATE ALL" run
    right after the begin fails, [ExecuteContext] rolls back once, drops
    whatever that rollback answers, never calls the unit of work and returns
    the zero result with the cleanup error wrapped behind the text "failed to
    deallocate prepared statements: ", the cause retrievable by [Unwrap]. *)
Theorem ExecuteContext_cleanup_failure
    ctx db txFunc options s config s0 s1 tx s2 deallocErr s3 rollbackErr :
  applyOptions options zeroConfig s = (config, s0) →
  DeallocateAll config = true →
  BeginTxx db ctx (TxOptions config) s0 = (s1, inl tx) →
  ExecContext tx ctx "DEALLOCATE ALL" s1 = (s2, Some deallocErr) →
  Rollback tx s2 = (s3, rollbackErr) →
  ∃ err,
    ExecuteContext ctx db txFunc options s
      = (Returned zero (Some err), s3,
         [EvBegin db ctx (TxOptions config);
          EvExec tx ctx "DEALLOCATE ALL";
          EvRollback tx])
    ∧ Unwrap err = Some deallocErr
    ∧ Error err
      = "failed to deallocate prepared statements: " +:+ Error deallocErr
    ∧ String.prefix "failed to deallocate prepared statements: " (Error err)
      = true.
Proof.
  intros Hcfg Hflag Hbegin Hexec Hrb.
  eexists. split.
  - run_executor. rewrite Hcfg, Hbegin, Hflag, Hexec, Hrb. reflexivity.
  - repeat split. apply prefix_append.
Qed.

(** Up to the deferred closure: a run whose begin and cleanup went through is
    the begin, the cleanup events, the call of the unit of work and then
    whatever the deferred closure does with how that call ended. *)
Lemma ExecuteContext_reaches_body
    ctx db txFunc options s config s0 s1 tx s2 s3 o :
  applyOptions options zeroConfig s = (config, s0) →
  BeginTxx db ctx (TxOptions config) s0 = (s1, inl tx) →
  cleanup_ok config ctx tx s1 s2 →
  txFunc tx s2 = (s3, o) →
  ExecuteContext ctx db txFunc options s
    = (outcome (deferred tx o s3), final (deferred tx o s3),
       EvBegin db ctx (TxOptions config)
         :: cleanup_events config ctx tx
         ++ EvCall tx :: trace (deferred tx o s3)).
Proof.
  intros Hcfg Hbegin Hclean Hcall.
  unfold cleanup_ok, cleanup_events in *.
  unfold ExecuteContext, mbind, M_bind, beginTxx, execContext, call, emit,
    outcome, final, trace.
  rewrite Hcfg, Hbegin.
  destruct (DeallocateAll config).
  - rewrite Hclean, Hcall. by destruct (deferred tx o s3) as [[? ?] ?].
  - subst s2. rewrite Hcall. by destruct (deferred tx o s3) as [[? ?] ?].
Qed.

Lemma count_cleanup_events p config ctx tx :
  p (EvExec tx ctx "DEALLOCATE ALL") = false →
  count p (cleanup_events config ctx tx) = 0.
Proof.
  intros Hp. unfold cleanup_events, count.
  destruct (DeallocateAll config); [|done].
  rewrite filter_cons_False; [done | by rewrite Hp].
Qed.

Lemma count_app p (t1 t2 : list Event) :
  count p (t1 ++ t2) = count p t1 + count p t2.
Proof. unfold count. by rewrite filter_app, length_app. Qed.

Lemma count_cons p e (t : list Event) :
  count p (e :: t) = (if p e then 1 else 0) + count p t.
Proof.
  unfold count. destruct (p e) eqn:E.
  - by rewrite filter_cons_True.
  - rewrite filter_cons_False; [done | by rewrite E].
Qed.

(** C3. When the unit of work returns [(v, nil)] and begin, the optional
    cleanup and commit all succeed, [ExecuteContext] returns [(v, nil)], and
    its calls are the begin, the cleanup statement if the flag is set, the
    unit of work and one commit: commit once, rollback never. *)
Theorem ExecuteContext_success
    ctx db txFunc options s config s0 s1 tx s2 s3 v s4 :
  applyOptions options zeroConfig s = (config, s0) →
  BeginTxx db ctx (TxOptions config) s0 = (s1, inl tx) →
  cleanup_ok config ctx tx s1 s2 →
  txFunc tx s2 = (s3, Returned v None) →
  Commit tx s3 = (s4, None) →
  let r := ExecuteContext ctx db txFunc options s in
  r = (Returned v None, s4,
       EvBegin db ctx (TxOptions config)
         :: cleanup_events config ctx tx ++ [EvCall tx; EvCommit tx])
  ∧ count is_commit (trace r) = 1
  ∧ count is_rollback (trace r) = 0.
Proof.
  intros Hcfg Hbegin Hclean Hcall Hcommit r.
  assert (Hr : r = (Returned v None, s4,
       EvBegin db ctx (TxOptions config)
         :: cleanup_events config ctx tx ++ [EvCall tx; EvCommit tx])).
  { subst r. rewrite (ExecuteContext_reaches_body _ _ _ _ _ _ _ _ _ _ _ _
      Hcfg Hbegin Hclean Hcall).
    run_executor. by rewrite Hcommit. }
  split; [exact Hr|]. rewrite Hr. unfold trace. simpl.
  rewrite !count_cons, !count_app, !count_cons; simpl.
  by rewrite !count_cleanup_events.
Qed.

(** C4. When the unit of work returns a non-nil error [e] (begin and the
    optional cleanup having succeeded), [ExecuteContext] rolls back once and
    never commits. If the rollback succeeds the returned error is [e] itself.
    If the rollback fails with [rb], the returned error carries the text
    "transaction rollback failed: <rb> (original error: <e>)", which names
    the rollback failure first, and [Unwrap] gives back [e]. *)
Theorem ExecuteContext_work_error
    ctx db txFunc options s config s0 s1 tx s2 s3 v e s4 rollbackErr :
  applyOptions options zeroConfig s = (config, s0) →
  BeginTxx db ctx (TxOptions config) s0 = (s1, inl tx) →
  cleanup_ok config ctx tx s1 s2 →
  txFunc tx s2 = (s3, Returned v (Some e)) →
  Rollback tx s3 = (s4, rollbackErr) →
  let r := ExecuteContext ctx db txFunc options s in
  trace r = EvBegin db ctx (TxOptions config)
              :: cleanup_events config ctx tx ++ [EvCall tx; EvRollback tx]
  ∧ count is_rollback (trace r) = 1
  ∧ count is_commit (trace r) = 0
  ∧ final r = s4
  ∧ ∃ err, outcome r = Returned v (Some err)
    ∧ match rollbackErr with
      | None => err = e
      | Some rb =>
          Unwrap err = Some e
          ∧ Error err = "transaction rollback failed: " +:+ Error rb
                        +:+ " (original error: " +:+ Error e +:+ ")"
          ∧ String.prefix "transaction rollback failed: " (Error err) = true
      end.
Proof.
  intros Hcfg Hbegin Hclean Hcall Hrb r.
  subst r. rewrite (ExecuteContext_reaches_body _ _ _ _ _ _ _ _ _ _ _ _
    Hcfg Hbegin Hclean Hcall).
  run_executor. rewrite Hrb.
  split_and!.
  1,4: by destruct rollbackErr.
  1,2: destruct rollbackErr; simpl;
         rewrite !count_cons, !count_app, !count_cons; simpl;
         by rewrite !count_cleanup_events.
  destruct rollbackErr as [rb|]; simpl; eexists; (split; [reflexivity|]).
  - repeat split. apply prefix_append.
  - reflexivity.
Qed.

(** C5. When the unit of work panics with payload [p], [ExecuteContext]
    rolls back once, drops whatever that rollback answers, never commits, and
    ends by panicking with the same payload [p]: it does not return. *)
Theorem ExecuteContext_panic
    ctx db txFunc options s config s0 s1 tx s2 s3 p s4 rollbackErr :
  applyOptions options zeroConfig s = (config, s0) →
  BeginTxx db ctx (TxOptions config) s0 = (s1, inl tx) →
  cleanup_ok config ctx tx s1 s2 →
  txFunc tx s2 = (s3, Panicked p) →
  Rollback tx s3 = (s4, rollbackErr) →
  let r := ExecuteContext ctx db txFunc options s in
  r = (Panicked p, s4,
       EvBegin db ctx (TxOptions config)
         :: cleanup_events config ctx tx ++ [EvCall tx; EvRollback tx])
  ∧ (∀ result err, outcome r ≠ Returned result err)
  ∧ count is_rollback (trace r) = 1
  ∧ count is_commit (trace r) = 0.
Proof.
  intros Hcfg Hbegin Hclean Hcall Hrb r.
  assert (Hr : r = (Panicked p, s4,
       EvBegin db ctx (TxOptions config)
         :: cleanup_events config ctx tx ++ [EvCall tx; EvRollback tx])).
  { subst r. rewrite (ExecuteContext_reaches_body _ _ _ _ _ _ _ _ _ _ _ _
      Hcfg Hbegin Hclean Hcall).
    run_executor. by rewrite Hrb. }
  split; [exact Hr|]. rewrite Hr. unfold trace, outcome. simpl.
  split_and!; [done| |];
    rewrite !count_cons, !count_app, !count_cons; simpl;
    by rewrite !count_cleanup_events.
Qed.

Ltac count_events :=
  unfold count; cbn;
  repeat (rewrite ?filter_cons_True, ?filter_cons_False, ?filter_nil by done);
  try done.

(** C1. Whenever the begin succeeds and hands out [tx], the calls
    [ExecuteContext] makes contain exactly one resolution of [tx] - one
    commit or one rollback, never both, never two - and that resolution is
    the last thing the executor did when it returns or re-panics, whichever
    way the run went: cleanup failure, error from the unit of work, panic,
    failed or successful commit. *)
Theorem ExecuteContext_resolves_exactly_once
    ctx db txFunc options s config s0 s1 tx :
  applyOptions options zeroConfig s = (config, s0) →
  BeginTxx db ctx (TxOptions config) s0 = (s1, inl tx) →
  let r := ExecuteContext ctx db txFunc options s in
  count is_commit (trace r) + count is_rollback (trace r) = 1
  ∧ (last (trace r) = Some (EvCommit tx)
     ∨ last (trace r) = Some (EvRollback tx)).
Proof.
  intros Hcfg Hbegin r. subst r.
  run_executor. rewrite Hcfg, Hbegin.
  destruct (DeallocateAll config).
  - destruct (ExecContext tx ctx "DEALLOCATE ALL" s1) as [s2 [deallocErr|]].
    + destruct (Rollback tx s2) as [s3 ?]. cbn. split; [count_events | by right].
    + destruct (txFunc tx s2) as [s3 [v [e|]|p]].
      * destruct (Rollback tx s3) as [s4 [rb|]]; cbn;
          (split; [count_events | by right]).
      * destruct (Commit tx s3) as [s4 [ce|]]; cbn;
          (split; [count_events | by left]).
      * destruct (Rollback tx s3) as [s4 ?]; cbn.
        split; [count_events | by right].
  - destruct (txFunc tx s1) as [s3 [v [e|]|p]].
    + destruct (Rollback tx s3) as [s4 [rb|]]; cbn;
        (split; [count_events | by right]).
    + destruct (Commit tx s3) as [s4 [ce|]]; cbn;
        (split; [count_events | by left]).
    + destruct (Rollback tx s3) as [s4 ?]; cbn.
      split; [count_events | by right].
Qed.

Ltac count_trace :=
  unfold trace; cbn [snd];
  rewrite ?count_cons, ?count_app, ?count_cons; cbn;
  rewrite ?count_cleanup_events by done; cbn; try done.

(** What the result is once the unit of work has been called: the value it
    returned, whatever the deferred closure then does. *)
Lemma result_on_error_body
    ctx db txFunc options s config s0 s1 tx s2 s3 o result err :
  applyOptions options zeroConfig s = (config, s0) →
  BeginTxx db ctx (TxOptions config) s0 = (s1, inl tx) →
  cleanup_ok config ctx tx s1 s2 →
  txFunc tx s2 = (s3, o) →
  let r := ExecuteContext ctx db txFunc options s in
  outcome r = Returned result (Some err) →
  count is_call (trace r) = 1
  ∧ ∃ tx s2 s3 e,
      txFunc tx s2 = (s3, Returned result e)
      ∧ elem_of (EvCall tx) (trace r)
      ∧ match e with
        | Some _ => count is_rollback (trace r) = 1
        | None =>
            ∃ s4 commitErr,
              Commit tx s3 = (s4, Some commitErr)
              ∧ err = Errorf_w "failed to commit transaction: " commitErr
        end.
Proof.
  intros Hcfg Hbegin Hclean Hcall r. subst r.
  rewrite (ExecuteContext_reaches_body _ _ _ _ _ _ _ _ _ _ _ _
    Hcfg Hbegin Hclean Hcall).
  destruct o as [v [e|]|p]; run_executor.
  - destruct (Rollback tx s3) as [s4 [rb|]]; cbn; intros [= <- <-];
      (split; [count_trace|]);
      exists tx, s2, s3, (Some e);
      (split_and!; [done | set_solver | count_trace]).
  - destruct (Commit tx s3) as [s4 [ce|]] eqn:Hcommit; cbn; [|done].
    intros [= <- <-]. split; [count_trace|].
    exists tx, s2, s3, None. split_and!; [done | set_solver | by eauto].
  - destruct (Rollback tx s3) as [s4 ?]; cbn. done.
Qed.

(** C2, as the code has it. When [ExecuteContext] returns a non-nil error,
    either the unit of work was never called (the begin or the cleanup
    failed) and the result is the zero value, or the unit of work was called
    once and returned [(result, e)], and the result handed back is that very
    [result]: with the error of the unit of work when [e] is non-nil, and
    with the wrapped commit error when [e] is nil and the commit failed. *)
Theorem ExecuteContext_result_on_error ctx db txFunc options s result err :
  let r := ExecuteContext ctx db txFunc options s in
  outcome r = Returned result (Some err) →
  (count is_call (trace r) = 0 ∧ result = zero)
  ∨ (count is_call (trace r) = 1
     ∧ ∃ tx s2 s3 e,
         txFunc tx s2 = (s3, Returned result e)
         ∧ elem_of (EvCall tx) (trace r)
         ∧ match e with
           | Some _ => count is_rollback (trace r) = 1
           | None =>
               ∃ s4 commitErr,
                 Commit tx s3 = (s4, Some commitErr)
                 ∧ err = Errorf_w "failed to commit transaction: " commitErr
           end).
Proof.
  intros r Hout.
  destruct (applyOptions options zeroConfig s) as [config s0] eqn:Hcfg.
  destruct (BeginTxx db ctx (TxOptions config) s0) as [s1 [tx|beginErr]]
    eqn:Hbegin.
  2:{ left. subst r. revert Hout. run_executor. rewrite Hcfg, Hbegin. cbn.
      intros [= <- <-]. by split; [count_events|]. }
  destruct (DeallocateAll config) eqn:Hflag.
  - destruct (ExecContext tx ctx "DEALLOCATE ALL" s1) as [s2 [deallocErr|]]
      eqn:Hexec.
    + left. subst r. revert Hout. run_executor.
      rewrite Hcfg, Hbegin, Hflag, Hexec.
      destruct (Rollback tx s2) as [s3 ?]. cbn.
      intros [= <- <-]. by split; [count_events|].
    + right. destruct (txFunc tx s2) as [s3 o] eqn:Hcall.
      assert (Hclean : cleanup_ok config ctx tx s1 s2)
        by (unfold cleanup_ok; by rewrite Hflag).
      exact (result_on_error_body ctx db txFunc options s config s0 s1 tx
               s2 s3 o result err Hcfg Hbegin Hclean Hcall Hout).
  - right. destruct (txFunc tx s1) as [s3 o] eqn:Hcall.
    assert (Hclean : cleanup_ok config ctx tx s1 s1)
      by (unfold cleanup_ok; by rewrite Hflag).
    exact (result_on_error_body ctx db txFunc options s config s0 s1 tx
             s1 s3 o result err Hcfg Hbegin Hclean Hcall Hout).
Qed.

Lemma Struct_nil_config_defaults ctx db txFunc s :
  begun_with_defaults ctx db (Struct.ExecuteContext ctx db None txFunc s).
Proof.
  unfold begun_with_defaults. run_executor.
  destruct (BeginTxx db ctx None s) as [s1 [tx|beginErr]]; cbn.
  2:{ split; [by eexists | count_events]. }
  destruct (txFunc tx s1) as [s3 [v [e|]|p]].
  - destruct (Rollback tx s3) as [s4 [rb|]]; cbn;
      (split; [by eexists | count_events]).
  - destruct (Commit tx s3) as [s4 [ce|]]; cbn;
      (split; [by eexists | count_events]).
  - destruct (Rollback tx s3) as [s4 ?]; cbn.
    split; [by eexists | count_events].
Qed.

Lemma Options_no_options ctx db txFunc s :
  ExecuteContext ctx db txFunc [] s
  = Struct.ExecuteContext ctx db None txFunc s.
Proof. reflexivity. Qed.

(** C8. Without a configuration - [Execute] of either variant,
    [ExecuteContext] with no option, [ExecuteContext] with a nil [*Config] -
    the transaction is begun with a nil [*sql.TxOptions] (the driver's
    defaults) and the executor runs no cleanup statement. *)
Theorem missing_configuration_is_default ctx db txFunc s :
  begun_with_defaults Background db (Execute db txFunc s)
  ∧ begun_with_defaults ctx db (ExecuteContext ctx db txFunc [] s)
  ∧ begun_with_defaults Background db (Struct.Execute db txFunc s)
  ∧ begun_with_defaults ctx db (Struct.ExecuteContext ctx db None txFunc s).
Proof.
  unfold Execute, Struct.Execute. rewrite !Options_no_options.
  split_and!; apply Struct_nil_config_defaults.
Qed.

(** C9. The two variants agree. Running the first with a list of options is
    running the second with the [Config] those options build, in the store
    they leave; running the second with a [Config] (or nil) is running the
    first with the options that build it (or none): same outcome, same final
    store, same calls in the same order. Each [Execute] is its
    [ExecuteContext] in the background context without configuration, and
    the two [Execute] agree. *)
Theorem variants_agree ctx db txFunc options (config : Config) s :
  ExecuteContext ctx db txFunc options s
    = (let '(config, s0) := applyOptions options zeroConfig s in
       Struct.ExecuteContext ctx db (Some config) txFunc s0)
  ∧ Struct.ExecuteContext ctx db (Some config) txFunc s
    = ExecuteContext ctx db txFunc (options_of config) s
  ∧ Struct.ExecuteContext ctx db None txFunc s
    = ExecuteContext ctx db txFunc [] s
  ∧ Execute db txFunc s = ExecuteContext Background db txFunc [] s
  ∧ Struct.Execute db txFunc s
    = Struct.ExecuteContext Background db None txFunc s
  ∧ Execute db txFunc s = Struct.Execute db txFunc s.
Proof.
  split_and!; try reflexivity.
  destruct config as [opts []]; reflexivity.
Qed.

(** C10. From the empty [Config], [WithIsolationLevel L] and [WithReadOnly]
    applied in either order give the same configuration and the same store:
    [TxOptions] points to a newly allocated struct holding [Isolation = L]
    and [ReadOnly = true], [DeallocateAll] stays false and nothing else
    changes. On a [Config] whose [TxOptions] is already set, each option
    writes its own field through the pointer and leaves the other field and
    the pointer as they are. *)
Theorem WithIsolationLevel_WithReadOnly_commute
    (L : sql.IsolationLevel) (l' : loc) (d : bool) s :
  let r1 := applyOptions [WithIsolationLevel L; WithReadOnly] zeroConfig s in
  let r2 := applyOptions [WithReadOnly; WithIsolationLevel L] zeroConfig s in
  let l := fresh (dom (st_heap s)) in
  r1 = r2
  ∧ st_heap s !! l = None
  ∧ r1.1 = {| TxOptions := Some l; DeallocateAll := false |}
  ∧ st_heap r1.2
    = <[l := {| sql.Isolation := L; sql.ReadOnly := true |}]> (st_heap s)
  ∧ st_world r1.2 = st_world s
  ∧ WithIsolationLevel L {| TxOptions := Some l'; DeallocateAll := d |} s
    = ({| TxOptions := Some l'; DeallocateAll := d |},
       set_heap (alter (λ o, {| sql.Isolation := L;
                                sql.ReadOnly := sql.ReadOnly o |}) l'
                   (st_heap s)) s)
  ∧ WithReadOnly {| TxOptions := Some l'; DeallocateAll := d |} s
    = ({| TxOptions := Some l'; DeallocateAll := d |},
       set_heap (alter (λ o, {| sql.Isolation := sql.Isolation o;
                                sql.ReadOnly := true |}) l'
                   (st_heap s)) s).
Proof.
  intros r1 r2 l. subst r1 r2.
  unfold applyOptions, WithIsolationLevel, WithReadOnly, alloc, store_at,
    set_heap; cbn. fold l.
  rewrite !alter_insert_eq; cbn.
  split_and!; try reflexivity.
  apply not_elem_of_dom, is_fresh.
Qed.

End ExecutorFacts.

(** ** The scenarios, on the scripted database *)

Lemma ExecuteContext_resolves_exactly_once_witness :
  count is_commit (trace run_commit_failure)
    + count is_rollback (trace run_commit_failure) = 1
  ∧ (last (trace run_commit_failure) = Some (EvCommit 1)
     ∨ last (trace run_commit_failure) = Some (EvRollback 1)).
Proof.
  exact (ExecuteContext_resolves_exactly_once (H := mock)
           tt tt returns_one [] (script None None None (Some bad_connection))
           zeroConfig _ _ 1 eq_refl eq_refl).
Defined.

(** C2, as the specification words it, fails on scenario D and on
    scenario B: the commit fails after the unit of work returned
    [1] and the executor returns [1] with the commit error; the unit of work
    returns [7] with an error and the executor returns [7] with it. Neither
    is the zero value. *)
Lemma commit_failure_keeps_result :
  outcome run_commit_failure
    = Returned 1%Z
        (Some (wrapError "failed to commit transaction: driver: bad connection"
                 bad_connection))
  ∧ outcome (Options.ExecuteContext tt tt fails_with_seven []
               (script None None None None))
    = Returned 7%Z (Some (errorString "insufficient funds"))
  ∧ 1%Z ≠ zero
  ∧ 7%Z ≠ zero
  ∧ ¬ zero_result_on_error.
Proof.
  split_and!; [reflexivity | reflexivity | done | done |].
  intros Hclaim.
  specialize (Hclaim mock Z Z_zero tt tt returns_one []
                (script None None None (Some bad_connection)) 1%Z _ eq_refl).
  discriminate Hclaim.
Qed.

Lemma ExecuteContext_result_on_error_witness :
  (count is_call (trace run_commit_failure) = 0 ∧ 1%Z = zero)
  ∨ (count is_call (trace run_commit_failure) = 1
     ∧ ∃ tx s2 s3 e,
         returns_one tx s2 = (s3, Returned 1%Z e)
         ∧ elem_of (EvCall tx) (trace run_commit_failure)
         ∧ match e with
           | Some _ => count is_rollback (trace run_commit_failure) = 1
           | None =>
               ∃ s4 commitErr,
                 Commit tx s3 = (s4, Some commitErr)
                 ∧ wrapError
                     "failed to commit transaction: driver: bad connection"
                     bad_connection
                   = Errorf_w "failed to commit transaction: " commitErr
           end).
Proof.
  exact (ExecuteContext_result_on_error (H := mock)
           tt tt returns_one [] (script None None None (Some bad_connection))
           1%Z _ eq_refl).
Defined.

Lemma ExecuteContext_success_witness :
  run_success
    = (Returned 1%Z None, script None None None None,
       [EvBegin tt tt None; EvExec 1 tt "DEALLOCATE ALL"; EvCall 1; EvCommit 1])
  ∧ count is_commit (trace run_success) = 1
  ∧ count is_rollback (trace run_success) = 0.
Proof.
  exact (ExecuteContext_success (H := mock)
           tt tt returns_one [Options.WithDeallocateAll]
           (script None None None None)
           {| TxOptions := None; DeallocateAll := true |}
           _ _ 1 _ _ 1%Z _ eq_refl eq_refl eq_refl eq_refl eq_refl).
Defined.

Lemma ExecuteContext_work_error_witness :
  trace run_work_error = [EvBegin tt tt None; EvCall 1; EvRollback 1]
  ∧ count is_rollback (trace run_work_error) = 1
  ∧ count is_commit (trace run_work_error) = 0
  ∧ final run_work_error = script None None (Some bad_connection) None
  ∧ ∃ err, outcome run_work_error = Returned 7%Z (Some err)
    ∧ Unwrap err = Some (errorString "insufficient funds")
    ∧ Error err = "transaction rollback failed: driver: bad connection (original error: insufficient funds)"
    ∧ String.prefix "transaction rollback failed: " (Error err) = true.
Proof.
  exact (ExecuteContext_work_error (H := mock)
           tt tt fails_with_seven []
           (script None None (Some bad_connection) None)
           zeroConfig _ _ 1 _ _ 7%Z (errorString "insufficient funds")
           _ (Some bad_connection)
           eq_refl eq_refl eq_refl eq_refl eq_refl).
Defined.

Lemma ExecuteContext_panic_witness :
  run_panic
    = (Panicked "boom"%string, script None None None None,
       [EvBegin tt tt None; EvCall 1; EvRollback 1])
  ∧ (∀ result err, outcome run_panic ≠ Returned result err)
  ∧ count is_rollback (trace run_panic) = 1
  ∧ count is_commit (trace run_panic) = 0.
Proof.
  exact (ExecuteContext_panic (H := mock)
           tt tt panics_boom [] (script None None None None)
           zeroConfig _ _ 1 _ _ "boom"%string _ None
           eq_refl eq_refl eq_refl eq_refl eq_refl).
Defined.

Lemma ExecuteContext_begin_failure_witness :
  ∃ err,
    run_begin_failure
      = (Returned zero (Some err),
         script (Some bad_connection) None None None,
         [EvBegin tt tt None])
    ∧ Unwrap err = Some bad_connection
    ∧ Error err = "failed to begin transaction: driver: bad connection"
    ∧ String.prefix "failed to begin transaction: " (Error err) = true.
Proof.
  exact (ExecuteContext_begin_failure (H := mock)
           tt tt returns_one [] (script (Some bad_connection) None None None)
           zeroConfig _ _ bad_connection eq_refl eq_refl).
Defined.

Lemma ExecuteContext_cleanup_failure_witness :
  ∃ err,
    run_cleanup_failure
      = (Returned zero (Some err),
         script None (Some bad_connection) None None,
         [EvBegin tt tt None; EvExec 1 tt "DEALLOCATE ALL"; EvRollback 1])
    ∧ Unwrap err = Some bad_connection
    ∧ Error err
      = "failed to deallocate prepared statements: driver: bad connection"
    ∧ String.prefix "failed to deallocate prepared statements: " (Error err)
      = true.
Proof.
  exact (ExecuteContext_cleanup_failure (H := mock)
           tt tt returns_one [Options.WithDeallocateAll]
           (script None (Some bad_connection) None None)
           {| TxOptions := None; DeallocateAll := true |}
           _ _ 1 _ bad_connection _ None
           eq_refl eq_refl eq_refl eq_refl eq_refl).
Defined.

(** * The rest of the package *)

Ltac unfold_executor :=
  unfold Options.Execute, Struct.Execute, Struct.ExecuteWithConfig,
    Options.ExecuteContext, Struct.ExecuteContext, Legacy.Execute,
    Legacy.beginx, Legacy.exec, Legacy.deferred,
    Options.deferred, Struct.deferred,
    mbind, M_bind, mret, M_ret,
    beginTxx, execContext, rollback, commit, call, emit.

Ltac tally :=
  unfold count, trace; cbn; try done; try (cbv; lia).

Section Shape.
Context `{Driver} {T : Type} `{Zero T}.
Implicit Types (ctx : Ctx) (db : DB) (tx : Tx) (txFunc : TxFunc T).
Implicit Types (s : Store World) (config : Config).

Lemma cleanup_ok_off config ctx tx s1 :
  DeallocateAll config = false → cleanup_ok config ctx tx s1 s1.
Proof. intros E. unfold cleanup_ok. by rewrite E. Qed.

Lemma cleanup_ok_on config ctx tx s1 s2 :
  DeallocateAll config = true →
  ExecContext tx ctx "DEALLOCATE ALL" s1 = (s2, None) →
  cleanup_ok config ctx tx s1 s2.
Proof. intros E ?. unfold cleanup_ok. by rewrite E. Qed.

(** Every run of the second variant has one of the five shapes. *)
Lemma Struct_run ctx db (config : option Config) txFunc s :
  Run ctx db (or_default config) txFunc s
    (Struct.ExecuteContext ctx db config txFunc s).
Proof.
  unfold_executor. fold (or_default config).
  generalize (or_default config). clear config. intros config.
  destruct (BeginTxx db ctx (TxOptions config) s) as [s1 [tx|beginErr]]
    eqn:Hbegin; cbn.
  2:{ by apply RunBeginFailed. }
  destruct (DeallocateAll config) eqn:Hflag.
  - destruct (ExecContext tx ctx "DEALLOCATE ALL" s1) as [s2 [deallocErr|]]
      eqn:Hexec.
    + destruct (Rollback tx s2) as [s3 rb] eqn:Hrb.
      exact (RunCleanupFailed ctx db config txFunc s _ _ _ _ _ _
               Hbegin Hflag Hexec Hrb).
    + pose proof (cleanup_ok_on _ _ _ _ _ Hflag Hexec) as Hclean.
      destruct (txFunc tx s2) as [s3 [v [e|]|p]] eqn:Hcall.
      * destruct (Rollback tx s3) as [s4 rb] eqn:Hrb.
        pose proof (RunWorkFailed ctx db config txFunc s _ _ _ _ _ _ _ _
                      Hbegin Hclean Hcall Hrb) as R.
        unfold cleanup_events in R. rewrite Hflag in R. by destruct rb.
      * destruct (Commit tx s3) as [s4 ce] eqn:Hce.
        pose proof (RunWorkDone ctx db config txFunc s _ _ _ _ _ _ _
                      Hbegin Hclean Hcall Hce) as R.
        unfold cleanup_events in R. rewrite Hflag in R. by destruct ce.
      * destruct (Rollback tx s3) as [s4 rb] eqn:Hrb.
        pose proof (RunPanicked ctx db config txFunc s _ _ _ _ _ _ _
                      Hbegin Hclean Hcall Hrb) as R.
        unfold cleanup_events in R. by rewrite Hflag in R.
  - pose proof (cleanup_ok_off _ ctx tx s1 Hflag) as Hclean.
    destruct (txFunc tx s1) as [s3 [v [e|]|p]] eqn:Hcall.
    + destruct (Rollback tx s3) as [s4 rb] eqn:Hrb.
      pose proof (RunWorkFailed ctx db config txFunc s _ _ _ _ _ _ _ _
                    Hbegin Hclean Hcall Hrb) as R.
      unfold cleanup_events in R. rewrite Hflag in R. by destruct rb.
    + destruct (Commit tx s3) as [s4 ce] eqn:Hce.
      pose proof (RunWorkDone ctx db config txFunc s _ _ _ _ _ _ _
                    Hbegin Hclean Hcall Hce) as R.
      unfold cleanup_events in R. rewrite Hflag in R. by destruct ce.
    + destruct (Rollback tx s3) as [s4 rb] eqn:Hrb.
      pose proof (RunPanicked ctx db config txFunc s _ _ _ _ _ _ _
                    Hbegin Hclean Hcall Hrb) as R.
      unfold cleanup_events in R. by rewrite Hflag in R.
Qed.

(** The first variant is the second one run on the [Config] its options
    build. *)
Lemma Options_as_Struct ctx db txFunc options s :
  Options.ExecuteContext ctx db txFunc options s
  = Struct.ExecuteContext ctx db
      (Some (Options.applyOptions options zeroConfig s).1) txFunc
      (Options.applyOptions options zeroConfig s).2.
Proof.
  unfold Options.ExecuteContext.
  by destruct (Options.applyOptions options zeroConfig s) as [c s0].
Qed.

Lemma Options_run ctx db txFunc options s :
  Run ctx db (Options.applyOptions options zeroConfig s).1 txFunc
    (Options.applyOptions options zeroConfig s).2
    (Options.ExecuteContext ctx db txFunc options s).
Proof. rewrite Options_as_Struct. apply (Struct_run ctx db (Some _)). Qed.

End Shape.

Ltac same_call :=
  repeat match goal with
         | H1 : ?x = _, H2 : ?x = _ |- _ => rewrite H1 in H2; simplify_eq
         end.

Ltac find_sublist :=
  repeat first [ apply sublist_nil | apply sublist_skip | apply sublist_cons ].

Section RunFacts.
Context `{Driver} {T : Type} `{Zero T}.
Implicit Types (ctx : Ctx) (db : DB) (tx : Tx) (txFunc : TxFunc T).
Implicit Types (s : Store World) (config : Config).
Implicit Types (r : Outcome T * Store World * list Event).

Lemma cleanup_events_cases config ctx tx :
  cleanup_events config ctx tx = []
  ∨ cleanup_events config ctx tx = [EvExec tx ctx "DEALLOCATE ALL"].
Proof. unfold cleanup_events. destruct (DeallocateAll config); auto. Qed.

Lemma Run_resolves_once ctx db config txFunc s r s1 tx :
  Run ctx db config txFunc s r →
  BeginTxx db ctx (TxOptions config) s = (s1, inl tx) →
  count is_commit (trace r) + count is_rollback (trace r) = 1
  ∧ (last (trace r) = Some (EvCommit tx)
     ∨ last (trace r) = Some (EvRollback tx)).
Proof.
  intros R Hbegin.
  destruct R as [? ? Hb|? tx' ? ? ? ? Hb|? tx' ? ? ? ? ? Hb
                |? tx' ? ? ? ? ? ? Hb|? tx' ? ? ? ? ? Hb];
    rewrite Hbegin in Hb; simplify_eq;
    try (destruct (cleanup_events_cases config ctx tx') as [-> | ->]);
    (split; [tally | cbn; auto]).
Qed.

Lemma Run_in_order ctx db config txFunc s r s1 tx :
  Run ctx db config txFunc s r →
  BeginTxx db ctx (TxOptions config) s = (s1, inl tx) →
  trace r `sublist_of`
    [EvBegin db ctx (TxOptions config); EvExec tx ctx "DEALLOCATE ALL";
     EvCall tx; EvRollback tx; EvCommit tx].
Proof.
  intros R Hbegin.
  destruct R as [? ? Hb|? tx' ? ? ? ? Hb|? tx' ? ? ? ? ? Hb
                |? tx' ? ? ? ? ? ? Hb|? tx' ? ? ? ? ? Hb];
    rewrite Hbegin in Hb; simplify_eq;
    try (destruct (cleanup_events_cases config ctx tx') as [-> | ->]);
    unfold trace; cbn; find_sublist.
Qed.

Lemma Run_never_retries ctx db config txFunc s r :
  Run ctx db config txFunc s r →
  head (trace r) = Some (EvBegin db ctx (TxOptions config))
  ∧ count is_begin (trace r) = 1
  ∧ count is_exec (trace r) ≤ 1
  ∧ count is_call (trace r) ≤ 1
  ∧ count is_commit (trace r) + count is_rollback (trace r) ≤ 1
  ∧ length (trace r) ≤ 4.
Proof.
  intros R.
  destruct R as [? ? Hb|? tx' ? ? ? ? Hb|? tx' ? ? ? ? ? Hb
                |? tx' ? ? ? ? ? ? Hb|? tx' ? ? ? ? ? Hb];
    try (destruct (cleanup_events_cases config ctx tx') as [-> | ->]);
    (split_and!; [done | tally ..]).
Qed.

Lemma Run_success ctx db config txFunc s r v :
  Run ctx db config txFunc s r →
  outcome r = Returned v None →
  ∃ s1 tx s2 s3,
    BeginTxx db ctx (TxOptions config) s = (s1, inl tx)
    ∧ cleanup_ok config ctx tx s1 s2
    ∧ txFunc tx s2 = (s3, Returned v None)
    ∧ Commit tx s3 = (final r, None)
    ∧ last (trace r) = Some (EvCommit tx)
    ∧ count is_rollback (trace r) = 0.
Proof.
  intros R Hout.
  destruct R as [? ? Hb|? tx' ? ? ? ? Hb|? tx' ? ? ? ? ? Hb
                |? tx' ? ? ? ? ? ? Hb|? tx' ? ? ? ? ce Hb Hclean Hcall Hce];
    unfold outcome, final in *; cbn in *; try discriminate Hout.
  destruct ce; [discriminate Hout|]. injection Hout as ->.
  eexists _, _, _, _. split_and!; try done;
    destruct (cleanup_events_cases config ctx tx') as [-> | ->];
    first [done | tally].
Qed.


End RunFacts.

Section Executors.
Context `{Driver} {T : Type} `{Zero T}.
Implicit Types (ctx : Ctx) (db : DB) (tx : Tx) (txFunc : TxFunc T).
Implicit Types (s : Store World) (options : list Options.ConfigOption).

Lemma Run_error ctx db (config : Config) txFunc s
    (r : Outcome T * Store World * list Event) res err :
  Run ctx db config txFunc s r →
  outcome r = Returned res (Some err) →
  (∃ s1 cause,
      BeginTxx db ctx (TxOptions config) s = (s1, inr cause)
      ∧ Unwrap err = Some cause
      ∧ String.prefix "failed to begin transaction: " (Error err) = true)
  ∨ (∃ tx s1 s2 cause,
      ExecContext tx ctx "DEALLOCATE ALL" s1 = (s2, Some cause)
      ∧ Unwrap err = Some cause
      ∧ String.prefix "failed to deallocate prepared statements: " (Error err)
        = true)
  ∨ (∃ tx s2 s3 cause,
      txFunc tx s2 = (s3, Returned res (Some cause))
      ∧ (err = cause
         ∨ Unwrap err = Some cause
           ∧ String.prefix "transaction rollback failed: " (Error err) = true))
  ∨ (∃ tx s3 s4 cause,
      txFunc tx s3 = (s4, Returned res None)
      ∧ Commit tx s4 = (final r, Some cause)
      ∧ Unwrap err = Some cause
      ∧ String.prefix "failed to commit transaction: " (Error err) = true).
Proof.
  intros R Hout.
  destruct R as [? ? Hb|? tx' ? ? ? ? Hb ? Hexec
                |? tx' ? ? ? ? ? Hb|? tx' ? ? ? ? ? rb Hb ? Hcall
                |? tx' ? ? ? ? ce Hb ? Hcall Hce];
    unfold outcome, final in *; cbn in *; simplify_eq.
  - left. eexists _, _.
    split_and!; [eassumption | reflexivity | apply prefix_append].
  - right; left. eexists _, _, _, _.
    split_and!; [eassumption | reflexivity | apply prefix_append].
  - right; right; left. eexists _, _, _, _. split; [eassumption|].
    destruct rb; cbn; [right | by left]. split; [done | apply prefix_append].
  - right; right; right. destruct ce; cbn in *; simplify_eq.
    eexists _, _, _, _.
    split_and!; [eassumption | eassumption | reflexivity | apply prefix_append].
Qed.

(** X1. The second variant resolves exactly once too: whenever its begin
    succeeds, with a [*Config] or with nil, the executor's calls contain one
    commit or one rollback of the begun transaction, never both and never
    two, and it is the last call made. *)
Theorem Struct_resolves_exactly_once
    ctx db (config : option Config) txFunc s s1 tx :
  BeginTxx db ctx (TxOptions (or_default config)) s = (s1, inl tx) →
  let r := Struct.ExecuteContext ctx db config txFunc s in
  count is_commit (trace r) + count is_rollback (trace r) = 1
  ∧ (last (trace r) = Some (EvCommit tx)
     ∨ last (trace r) = Some (EvRollback tx)).
Proof. intros Hbegin. eapply Run_resolves_once; [apply Struct_run | done]. Qed.

(** X2. The calls of a run are a subsequence of: begin, "DEALLOCATE ALL",
    unit of work, rollback, commit. So each happens at most once and in that
    order, the cleanup statement and every later call go to the transaction
    the begin returned, and the cleanup runs in the caller's context. *)
Theorem ExecuteContext_calls_in_order
    ctx db txFunc options s (config : Config) s0 s1 tx :
  Options.applyOptions options zeroConfig s = (config, s0) →
  BeginTxx db ctx (TxOptions config) s0 = (s1, inl tx) →
  trace (Options.ExecuteContext ctx db txFunc options s)
    `sublist_of`
    [EvBegin db ctx (TxOptions config); EvExec tx ctx "DEALLOCATE ALL";
     EvCall tx; EvRollback tx; EvCommit tx].
Proof.
  intros Hcfg Hbegin.
  pose proof (Options_run ctx db txFunc options s) as R.
  rewrite Hcfg in R. by eapply Run_in_order.
Qed.

(** X3. Nothing is retried: in every run of the second variant the first
    call is the begin and it is the only begin; there is at most one cleanup
    statement, at most one call of the unit of work and at most one
    resolution; four calls at most. *)
Theorem Struct_never_retries
    ctx db (config : option Config) txFunc s :
  let r := Struct.ExecuteContext ctx db config txFunc s in
  head (trace r) = Some (EvBegin db ctx (TxOptions (or_default config)))
  ∧ count is_begin (trace r) = 1
  ∧ count is_exec (trace r) ≤ 1
  ∧ count is_call (trace r) ≤ 1
  ∧ count is_commit (trace r) + count is_rollback (trace r) ≤ 1
  ∧ length (trace r) ≤ 4.
Proof. eapply Run_never_retries, Struct_run. Qed.

(** X4. [ExecuteContext] reports success only for a committed transaction:
    if it returns [(v, nil)] then the begin and the cleanup went through, the
    unit of work was called and returned [(v, nil)], the commit was the last
    call and it answered nil; no rollback was attempted. *)
Theorem reported_success_means_committed
    ctx db txFunc options s v :
  let r := Options.ExecuteContext ctx db txFunc options s in
  outcome r = Returned v None →
  ∃ config s0 s1 tx s2 s3,
    Options.applyOptions options zeroConfig s = (config, s0)
    ∧ BeginTxx db ctx (TxOptions config) s0 = (s1, inl tx)
    ∧ cleanup_ok config ctx tx s1 s2
    ∧ txFunc tx s2 = (s3, Returned v None)
    ∧ Commit tx s3 = (final r, None)
    ∧ last (trace r) = Some (EvCommit tx)
    ∧ count is_rollback (trace r) = 0.
Proof.
  intros r Hout.
  pose proof (Options_run ctx db txFunc options s) as R.
  destruct (Run_success _ _ _ _ _ _ _ R Hout)
    as (s1 & tx & s2 & s3 & ? & ? & ? & ? & ? & ?).
  exists (Options.applyOptions options zeroConfig s).1,
         (Options.applyOptions options zeroConfig s).2, s1, tx, s2, s3.
  split_and!; try done.
  by destruct (Options.applyOptions options zeroConfig s).
Qed.

(** X5. [ExecuteWithConfig] reports success only for a committed
    transaction, begun in the background context with the options of the
    given [Config] (nil options for a nil [Config]). *)
Theorem ExecuteWithConfig_success_means_committed
    db (config : option Config) txFunc s v :
  let r := Struct.ExecuteWithConfig db config txFunc s in
  outcome r = Returned v None →
  ∃ s1 tx s2 s3,
    BeginTxx db Background (TxOptions (or_default config)) s = (s1, inl tx)
    ∧ cleanup_ok (or_default config) Background tx s1 s2
    ∧ txFunc tx s2 = (s3, Returned v None)
    ∧ Commit tx s3 = (final r, None)
    ∧ last (trace r) = Some (EvCommit tx)
    ∧ count is_rollback (trace r) = 0.
Proof.
  intros r Hout. eapply Run_success; [|exact Hout].
  apply Struct_run.
Qed.


(** X7. The cause of a reported error is never lost. An error returned by
    the second variant is of one of four kinds: it wraps the error of the
    failed begin; it wraps the error of the failed cleanup statement; it is
    the error the unit of work returned, or wraps it when the rollback
    failed as well; it wraps the error of the failed commit. In the wrapping
    cases the text starts with the phase that failed and one [Unwrap] gives
    the cause. *)
Theorem Struct_error_cause
    ctx db (config : option Config) txFunc s res err :
  let r := Struct.ExecuteContext ctx db config txFunc s in
  outcome r = Returned res (Some err) →
  (∃ s1 cause,
      BeginTxx db ctx (TxOptions (or_default config)) s = (s1, inr cause)
      ∧ Unwrap err = Some cause
      ∧ String.prefix "failed to begin transaction: " (Error err) = true)
  ∨ (∃ tx s1 s2 cause,
      ExecContext tx ctx "DEALLOCATE ALL" s1 = (s2, Some cause)
      ∧ Unwrap err = Some cause
      ∧ String.prefix "failed to deallocate prepared statements: " (Error err)
        = true)
  ∨ (∃ tx s2 s3 cause,
      txFunc tx s2 = (s3, Returned res (Some cause))
      ∧ (err = cause
         ∨ Unwrap err = Some cause
           ∧ String.prefix "transaction rollback failed: " (Error err) = true))
  ∨ (∃ tx s3 s4 cause,
      txFunc tx s3 = (s4, Returned res None)
      ∧ Commit tx s4 = (final r, Some cause)
      ∧ Unwrap err = Some cause
      ∧ String.prefix "failed to commit transaction: " (Error err) = true).
Proof. intros r Hout. eapply Run_error; [apply Struct_run | exact Hout]. Qed.

End Executors.

Section OptionFacts.
Context `{Driver}.
Implicit Types (c : Config) (s : Store World) (L : sql.IsolationLevel).
Implicit Types (p : option loc) (l : loc) (bs : list Builtin).

Import Options.

Lemma applyOptions_app (xs ys : list ConfigOption) c s :
  applyOptions (xs ++ ys) c s
  = applyOptions ys (applyOptions xs c s).1 (applyOptions xs c s).2.
Proof.
  revert c s. induction xs as [|x xs IH]; intros c s; cbn; [done|].
  destruct (x c s) as [c' s']. apply IH.
Qed.

Lemma alter_twice (f g : sql.TxOptions → sql.TxOptions) l (h : heap) :
  alter g l (alter f l h) = alter (g ∘ f) l h.
Proof. by rewrite alter_alter_eq. Qed.

Lemma alter_present (f : sql.TxOptions → sql.TxOptions) l (h : heap) o :
  h !! l = Some o → alter f l h = <[l := f o]> h.
Proof.
  intros Hl. apply map_eq. intros j.
  rewrite lookup_alter, lookup_insert.
  destruct (decide (l = j)); [by rewrite Hl | done].
Qed.

(** X8. [WithIsolationLevel] and [WithReadOnly] commute on every [Config],
    not only on the empty one: also when [TxOptions] already points to a
    struct of the caller, both orders leave the same [Config] and the same
    store. *)
Theorem isolation_and_read_only_commute_everywhere L c s :
  applyOptions [WithIsolationLevel L; WithReadOnly] c s
  = applyOptions [WithReadOnly; WithIsolationLevel L] c s.
Proof.
  destruct c as [[l|] d]; cbn;
    unfold WithIsolationLevel, WithReadOnly, alloc, store_at, set_heap; cbn.
  - by rewrite !alter_twice.
  - by rewrite !alter_insert_eq.
Qed.

(** X9. Repeating an option: of two [WithIsolationLevel] the later level
    stands, of two [WithTxOptions] the later pointer stands, and a second
    [WithReadOnly] or [WithDeallocateAll] changes nothing. This holds on
    every [Config] and store, and no second struct is allocated. *)
Theorem repeated_option_last_wins (L1 L2 : sql.IsolationLevel) p q c s :
  applyOptions [WithIsolationLevel L1; WithIsolationLevel L2] c s
    = WithIsolationLevel L2 c s
  ∧ applyOptions [WithTxOptions p; WithTxOptions q] c s = WithTxOptions q c s
  ∧ applyOptions [WithReadOnly; WithReadOnly] c s = WithReadOnly c s
  ∧ applyOptions [WithDeallocateAll; WithDeallocateAll] c s
    = WithDeallocateAll c s.
Proof.
  split_and!; try reflexivity;
    destruct c as [[l|] d]; cbn;
    unfold WithIsolationLevel, WithReadOnly, alloc, store_at, set_heap; cbn;
    by rewrite ?alter_twice, ?alter_insert_eq.
Qed.

(** X10. Options given after [WithTxOptions(opts)] write through the
    pointer: when [opts] points to a struct of the caller,
    [WithIsolationLevel L] and [WithReadOnly] overwrite both fields of that
    very struct, and the [Config] keeps pointing to it; nothing is
    allocated. *)
Theorem options_after_WithTxOptions_write_through L l o c s :
  st_heap s !! l = Some o →
  applyOptions [WithTxOptions (Some l); WithIsolationLevel L; WithReadOnly] c s
  = ({| TxOptions := Some l; DeallocateAll := DeallocateAll c |},
     set_heap (<[l := {| sql.Isolation := L; sql.ReadOnly := true |}]>
                 (st_heap s)) s).
Proof.
  intros Hl. cbn.
  unfold WithIsolationLevel, WithReadOnly, store_at, set_heap; cbn.
  by rewrite alter_twice, (alter_present _ _ _ _ Hl).
Qed.

(** X11. [WithTxOptions] given last discards what [WithIsolationLevel] and
    [WithReadOnly] set before it: the [Config] points to the given options
    (or nil), the struct those two had allocated is left behind, and every
    struct that existed before, the given one included, is as it was. *)
Theorem WithTxOptions_last_discards L p s :
  let r := applyOptions [WithIsolationLevel L; WithReadOnly; WithTxOptions p]
             zeroConfig s in
  r.1 = {| TxOptions := p; DeallocateAll := false |}
  ∧ st_heap s ⊆ st_heap r.2
  ∧ st_heap r.2
    = <[fresh (dom (st_heap s))
        := {| sql.Isolation := L; sql.ReadOnly := true |}]> (st_heap s)
  ∧ st_world r.2 = st_world s.
Proof.
  cbn. unfold WithIsolationLevel, WithReadOnly, WithTxOptions, alloc,
    store_at, set_heap; cbn.
  rewrite !alter_insert_eq; cbn.
  split_and!; try reflexivity.
  apply insert_subseteq, not_elem_of_dom, is_fresh.
Qed.

(** What one shipped option does to the flag: it sets it or leaves it, and
    neither the pointer nor the store it produces depends on it. *)
Lemma builtin_flag (b : Builtin) (o : option loc) (d : bool) s :
  builtin b {| TxOptions := o; DeallocateAll := d |} s
  = ({| TxOptions :=
          TxOptions (builtin b {| TxOptions := o; DeallocateAll := false |} s).1;
        DeallocateAll := d || is_dealloc b |},
     (builtin b {| TxOptions := o; DeallocateAll := false |} s).2).
Proof.
  destruct b, o, d; cbn;
    unfold WithIsolationLevel, WithReadOnly, WithTxOptions, WithDeallocateAll,
      alloc, store_at, set_heap; cbn; reflexivity.
Qed.

Lemma builtins_flag bs (o : option loc) (d : bool) s :
  applyOptions (builtin <$> bs) {| TxOptions := o; DeallocateAll := d |} s
  = ({| TxOptions :=
          TxOptions (applyOptions (builtin <$> bs)
                       {| TxOptions := o; DeallocateAll := false |} s).1;
        DeallocateAll := d || existsb is_dealloc bs |},
     (applyOptions (builtin <$> bs)
        {| TxOptions := o; DeallocateAll := false |} s).2).
Proof.
  revert o d s. induction bs as [|b bs IH]; intros o d s; cbn.
  { by rewrite orb_false_r. }
  rewrite (builtin_flag b o d).
  destruct (builtin b {| TxOptions := o; DeallocateAll := false |} s)
    as [[o' d'] s'] eqn:Hb; cbn.
  rewrite (IH o' (d || is_dealloc b)), (IH o' d').
  assert (d' = is_dealloc b) as ->.
  { rewrite builtin_flag in Hb. by injection Hb. }
  cbn. by rewrite orb_assoc.
Qed.

Lemma builtin_frame (b : Builtin) c s :
  st_world (builtin b c s).2 = st_world s
  ∧ dom (st_heap s) ⊆ dom (st_heap (builtin b c s).2).
Proof.
  destruct b, c as [[l|] d]; cbn;
    unfold WithIsolationLevel, WithReadOnly, WithTxOptions, WithDeallocateAll,
      alloc, store_at, set_heap; cbn;
    (split; [reflexivity|]);
    rewrite ?alter_insert_eq, ?dom_alter_L, ?dom_insert_L; set_solver.
Qed.

(** X12. What the shipped options never do, in any number and order: they
    never touch the database, they never free a struct, and none of them
    clears the cleanup flag - at the end it is set exactly when it was set
    at the start or [WithDeallocateAll] is among them. *)
Theorem shipped_options_invariants bs c s :
  let r := applyOptions (builtin <$> bs) c s in
  st_world r.2 = st_world s
  ∧ dom (st_heap s) ⊆ dom (st_heap r.2)
  ∧ DeallocateAll r.1 = DeallocateAll c || existsb is_dealloc bs.
Proof.
  cbn. split_and!.
  - revert c s. induction bs as [|b bs IH]; intros c s; cbn; [done|].
    destruct (builtin b c s) as [c' s'] eqn:Hb. rewrite IH.
    pose proof (builtin_frame b c s) as [Hw _]. by rewrite Hb in Hw.
  - revert c s. induction bs as [|b bs IH]; intros c s; cbn; [done|].
    destruct (builtin b c s) as [c' s'] eqn:Hb.
    pose proof (builtin_frame b c s) as [_ Hd]. rewrite Hb in Hd.
    etrans; [exact Hd | apply IH].
  - destruct c as [o d]. by rewrite builtins_flag.
Qed.

(** X13. [WithDeallocateAll] can stand anywhere among the shipped options:
    wherever it is inserted, the result is what the other options build,
    with the cleanup flag set. *)
Theorem WithDeallocateAll_anywhere (xs ys : list Builtin) c s :
  applyOptions (builtin <$> (xs ++ BDeallocateAll :: ys)) c s
  = ({| TxOptions := TxOptions (applyOptions (builtin <$> (xs ++ ys)) c s).1;
        DeallocateAll := true |},
     (applyOptions (builtin <$> (xs ++ ys)) c s).2).
Proof.
  rewrite !fmap_app, !applyOptions_app. cbn.
  destruct (applyOptions (builtin <$> xs) c s) as [[o d] s']; cbn.
  unfold WithDeallocateAll; cbn.
  rewrite (builtins_flag ys o true), (builtins_flag ys o d). by cbn.
Qed.

End OptionFacts.

Section Configured.
Context `{Driver} {T : Type} `{Zero T}.
Implicit Types (ctx : Ctx) (db : DB) (tx : Tx) (txFunc : TxFunc T).
Implicit Types (s : Store World) (bs : list Builtin).

(** X14. The options reach the driver: [ExecuteContext] with
    [WithIsolationLevel L] and [WithReadOnly] runs as the second variant
    does on a [Config] whose [TxOptions] points to a new struct holding
    [Isolation = L] and [ReadOnly = true]; that pointer is what [BeginTxx]
    receives. *)
Theorem ExecuteContext_passes_options ctx db txFunc (L : sql.IsolationLevel) s :
  let l := fresh (dom (st_heap s)) in
  let s0 := set_heap (<[l := {| sql.Isolation := L; sql.ReadOnly := true |}]>
                        (st_heap s)) s in
  Options.ExecuteContext ctx db txFunc
    [Options.WithIsolationLevel L; Options.WithReadOnly] s
  = Struct.ExecuteContext ctx db
      (Some {| TxOptions := Some l; DeallocateAll := false |}) txFunc s0
  ∧ head (trace (Options.ExecuteContext ctx db txFunc
                   [Options.WithIsolationLevel L; Options.WithReadOnly] s))
    = Some (EvBegin db ctx (Some l))
  ∧ st_heap s0 !! l = Some {| sql.Isolation := L; sql.ReadOnly := true |}.
Proof.
  intros l s0.
  assert (Hcfg : Options.applyOptions
                   [Options.WithIsolationLevel L; Options.WithReadOnly]
                   zeroConfig s
                 = ({| TxOptions := Some l; DeallocateAll := false |}, s0)).
  { cbn. unfold Options.WithIsolationLevel, Options.WithReadOnly, alloc,
      store_at, set_heap; cbn. by rewrite !alter_insert_eq. }
  split_and!.
  - by rewrite Options_as_Struct, Hcfg.
  - pose proof (Options_run ctx db txFunc
                  [Options.WithIsolationLevel L; Options.WithReadOnly] s) as R.
    rewrite Hcfg in R. by destruct (Run_never_retries _ _ _ _ _ _ R) as [-> _].
  - subst s0. cbn. apply lookup_insert_eq.
Qed.

(** X15. Whether the cleanup runs is decided by [WithDeallocateAll] alone:
    with shipped options and a begin that succeeds, the call right after the
    begin is "DEALLOCATE ALL" on the new transaction in the caller's context
    when [WithDeallocateAll] is among the options, and is the unit of work
    itself when it is not. *)
Theorem cleanup_follows_begin ctx db txFunc bs s (config : Config) s0 s1 tx :
  Options.applyOptions (builtin <$> bs) zeroConfig s = (config, s0) →
  BeginTxx db ctx (TxOptions config) s0 = (s1, inl tx) →
  let r := Options.ExecuteContext ctx db txFunc (builtin <$> bs) s in
  trace r !! 1
  = Some (if existsb is_dealloc bs
          then EvExec tx ctx "DEALLOCATE ALL"
          else EvCall tx)
  ∧ count is_exec (trace r) = (if existsb is_dealloc bs then 1 else 0).
Proof.
  intros Hcfg Hbegin r.
  assert (Hflag : DeallocateAll config = existsb is_dealloc bs).
  { pose proof (builtins_flag bs None false s) as Hb.
    fold zeroConfig in Hb. rewrite Hcfg in Hb. cbn in Hb.
    by destruct config; simplify_eq. }
  pose proof (Options_run ctx db txFunc (builtin <$> bs) s) as R.
  rewrite Hcfg in R. cbn in R. fold r in R.
  destruct R as [? ? Hb|? tx' ? ? ? ? Hb Hd|? tx' ? ? ? ? ? Hb
                |? tx' ? ? ? ? ? ? Hb|? tx' ? ? ? ? ? Hb];
    rewrite Hbegin in Hb; simplify_eq;
    unfold cleanup_events; rewrite <- ?Hflag;
    try (rewrite Hd; split; [done | tally]);
    destruct (DeallocateAll config); (split; [done | tally]).
Qed.

(** X16. Scenario D for [ExecuteWithConfig]: when the unit of work returns
    [(v, nil)] and the commit fails, the call returns [v] with the commit
    error wrapped behind "failed to commit transaction: "; the commit is the
    last call and no rollback follows it. *)
Theorem ExecuteWithConfig_commit_failure
    db (config : option Config) txFunc s s1 tx s2 s3 v s4 commitErr :
  BeginTxx db Background (TxOptions (or_default config)) s = (s1, inl tx) →
  cleanup_ok (or_default config) Background tx s1 s2 →
  txFunc tx s2 = (s3, Returned v None) →
  Commit tx s3 = (s4, Some commitErr) →
  let r := Struct.ExecuteWithConfig db config txFunc s in
  r = (Returned v (Some (Errorf_w "failed to commit transaction: " commitErr)),
       s4,
       EvBegin db Background (TxOptions (or_default config))
         :: cleanup_events (or_default config) Background tx
         ++ [EvCall tx; EvCommit tx])
  ∧ count is_rollback (trace r) = 0
  ∧ Unwrap (Errorf_w "failed to commit transaction: " commitErr)
    = Some commitErr.
Proof.
  intros Hbegin Hclean Hcall Hcommit r.
  pose proof (Struct_run Background db config txFunc s) as R.
  change (Struct.ExecuteContext Background db config txFunc s) with r in R.
  assert (Hr : r = (Returned v (Some (Errorf_w "failed to commit transaction: "
                                         commitErr)), s4,
       EvBegin db Background (TxOptions (or_default config))
         :: cleanup_events (or_default config) Background tx
         ++ [EvCall tx; EvCommit tx])).
  { unfold cleanup_ok, cleanup_events in *.
    destruct R as [? ? Hb|? tx' ? ? ? ? Hb Hd He|? tx' ? ? ? ? ? Hb Hc Hf
                  |? tx' ? ? ? ? ? ? Hb Hc Hf|? tx' ? ? ? ? ? Hb Hc Hf Hk];
      rewrite Hbegin in Hb; simplify_eq;
      unfold cleanup_ok, cleanup_events, after_commit in *;
      destruct (DeallocateAll (or_default config)); simplify_eq;
      same_call; done. }
  split_and!; [exact Hr | | done].
  rewrite Hr.
  destruct (cleanup_events_cases (or_default config) Background tx)
    as [-> | ->]; tally.
Qed.

End Configured.

Section FirstRelease.
Context `{Driver} {T : Type} `{Zero T}.
Implicit Types (db : DB) (tx : Tx) (txFunc : TxFunc T) (s : Store World).

(** X17. The first release always cleans up: whenever its begin succeeds,
    the transaction was begun in the background context with nil options
    and the very next call is "DEALLOCATE ALL" on it - the sequence that
    [tx_test.go] expects of [Execute]. *)
Theorem Legacy_Execute_always_deallocates db txFunc s s1 tx :
  BeginTxx db Background None s = (s1, inl tx) →
  ∃ rest,
    trace (Legacy.Execute db txFunc s)
    = EvBegin db Background None
        :: EvExec tx Background "DEALLOCATE ALL" :: rest.
Proof.
  intros Hbegin. unfold_executor. unfold trace. rewrite Hbegin. cbn.
  destruct (ExecContext tx Background "DEALLOCATE ALL" s1) as [s2 [de|]]; cbn.
  - destruct (Rollback tx s2) as [s3 ?]. by eexists.
  - destruct (txFunc tx s2) as [s3 [v [e|]|p]]; cbn.
    + destruct (Rollback tx s3) as [s4 [rb|]]; by eexists.
    + destruct (Commit tx s3) as [s4 [ce|]]; by eexists.
    + destruct (Rollback tx s3) as [s4 ?]; by eexists.
Qed.

(** X18. The first release hands back how the unit of work ended and
    nothing else. Once the begin and the cleanup went through, its outcome
    is the outcome [o] of the unit of work, whatever the commit or the
    rollback answers: a failed commit is not reported, nor a failed
    rollback. The resolution itself is as documented: one commit when [o]
    is a return without error, one rollback otherwise, as the last call. *)
Theorem Legacy_Execute_returns_work_outcome db txFunc s s1 tx s2 s3 o :
  BeginTxx db Background None s = (s1, inl tx) →
  ExecContext tx Background "DEALLOCATE ALL" s1 = (s2, None) →
  txFunc tx s2 = (s3, o) →
  let r := Legacy.Execute db txFunc s in
  outcome r = o
  ∧ trace r
    = [EvBegin db Background None; EvExec tx Background "DEALLOCATE ALL";
       EvCall tx;
       match o with Returned _ None => EvCommit tx | _ => EvRollback tx end]
  ∧ final r
    = match o with
      | Returned _ None => (Commit tx s3).1
      | _ => (Rollback tx s3).1
      end.
Proof.
  intros Hbegin Hexec Hcall. unfold_executor. unfold outcome, trace, final.
  rewrite Hbegin. cbn. rewrite Hexec. cbn. rewrite Hcall. cbn.
  destruct o as [v [e|]|p]; cbn.
  - by destruct (Rollback tx s3) as [s4 [rb|]].
  - by destruct (Commit tx s3) as [s4 [ce|]].
  - by destruct (Rollback tx s3) as [s4 ?].
Qed.

(** X19. The first release against the current package. [Execute] of the
    first release and [ExecuteContext] in the background context with
    [WithDeallocateAll] make the same calls and leave the same store. Their
    outcomes are equal too, except when the resolution itself fails: then
    the current package returns the value of the unit of work with an error
    naming the failed commit or the failed rollback, where the first
    release returned what the unit of work returned. *)
Theorem Legacy_Execute_against_ExecuteContext db txFunc s :
  let old := Legacy.Execute db txFunc s in
  let new := Options.ExecuteContext Background db txFunc
               [Options.WithDeallocateAll] s in
  trace old = trace new
  ∧ final old = final new
  ∧ (outcome old = outcome new
     ∨ ∃ v e err,
         outcome old = Returned v e
         ∧ outcome new = Returned v (Some err)
         ∧ (e = None
            ∧ String.prefix "failed to commit transaction: " (Error err) = true
            ∨ Unwrap err = e
              ∧ String.prefix "transaction rollback failed: " (Error err)
                = true)).
Proof.
  unfold_executor. unfold outcome, trace, final. cbn.
  destruct (BeginTxx db Background None s) as [s1 [tx|beginErr]]; cbn.
  2:{ split_and!; auto. }
  destruct (ExecContext tx Background "DEALLOCATE ALL" s1) as [s2 [de|]]; cbn.
  { destruct (Rollback tx s2) as [s3 ?]. cbn. split_and!; auto. }
  destruct (txFunc tx s2) as [s3 [v [e|]|p]]; cbn.
  - destruct (Rollback tx s3) as [s4 [rb|]]; cbn; (split_and!; [done..|]);
      [right | by left].
    eexists _, _, _. split_and!; [done.. |]. right.
    split; [done | apply prefix_append].
  - destruct (Commit tx s3) as [s4 [ce|]]; cbn; (split_and!; [done..|]);
      [right | by left].
    eexists _, _, _. split_and!; [done.. |]. left.
    split; [done | apply prefix_append].
  - destruct (Rollback tx s3) as [s4 ?]; cbn. split_and!; auto.
Qed.

End FirstRelease.

(** ** These properties on the scripted database *)

Lemma Struct_resolves_exactly_once_witness :
  count is_commit
      (trace (Struct.ExecuteContext tt tt None fails_with_seven
                (script None None None None)))
    + count is_rollback
        (trace (Struct.ExecuteContext tt tt None fails_with_seven
                  (script None None None None))) = 1
  ∧ (last (trace (Struct.ExecuteContext tt tt None fails_with_seven
                    (script None None None None))) = Some (EvCommit 1)
     ∨ last (trace (Struct.ExecuteContext tt tt None fails_with_seven
                      (script None None None None))) = Some (EvRollback 1)).
Proof.
  exact (Struct_resolves_exactly_once (H := mock)
           tt tt None fails_with_seven (script None None None None)
           _ 1 eq_refl).
Defined.

Lemma ExecuteContext_calls_in_order_witness :
  trace run_success
    `sublist_of`
    [EvBegin tt tt None; EvExec 1 tt "DEALLOCATE ALL";
     EvCall 1; EvRollback 1; EvCommit 1].
Proof.
  exact (ExecuteContext_calls_in_order (H := mock)
           tt tt returns_one [Options.WithDeallocateAll]
           (script None None None None)
           {| TxOptions := None; DeallocateAll := true |} _ _ 1
           eq_refl eq_refl).
Defined.

Lemma reported_success_means_committed_witness :
  ∃ config s0 s1 tx s2 s3,
    Options.applyOptions [Options.WithDeallocateAll] zeroConfig
      (script None None None None) = (config, s0)
    ∧ BeginTxx tt tt (TxOptions config) s0 = (s1, inl tx)
    ∧ cleanup_ok config tt tx s1 s2
    ∧ returns_one tx s2 = (s3, Returned 1%Z None)
    ∧ Commit tx s3 = (final run_success, None)
    ∧ last (trace run_success) = Some (EvCommit tx)
    ∧ count is_rollback (trace run_success) = 0.
Proof.
  exact (reported_success_means_committed (H := mock)
           tt tt returns_one [Options.WithDeallocateAll]
           (script None None None None) 1%Z eq_refl).
Defined.

Lemma ExecuteWithConfig_success_means_committed_witness :
  ∃ s1 tx s2 s3,
    BeginTxx tt Background
      (TxOptions (or_default (Some (mkConfig None true))))
      (script None None None None) = (s1, inl tx)
    ∧ cleanup_ok (or_default (Some (mkConfig None true))) Background tx s1 s2
    ∧ returns_one tx s2 = (s3, Returned 1%Z None)
    ∧ Commit tx s3
      = (final (Struct.ExecuteWithConfig tt (Some (mkConfig None true))
                  returns_one (script None None None None)), None)
    ∧ last (trace (Struct.ExecuteWithConfig tt (Some (mkConfig None true))
                     returns_one (script None None None None)))
      = Some (EvCommit tx)
    ∧ count is_rollback
        (trace (Struct.ExecuteWithConfig tt (Some (mkConfig None true))
                  returns_one (script None None None None))) = 0.
Proof.
  exact (ExecuteWithConfig_success_means_committed (H := mock)
           tt (Some (mkConfig None true)) returns_one
           (script None None None None) 1%Z eq_refl).
Defined.


Lemma options_after_WithTxOptions_write_through_witness :
  Options.applyOptions
    [Options.WithTxOptions (Some 1%positive);
     Options.WithIsolationLevel 6%Z; Options.WithReadOnly]
    zeroConfig
    {| st_heap := {[ 1%positive := sql.zeroTxOptions ]};
       st_world := mkScript None None None None |}
  = ({| TxOptions := Some 1%positive; DeallocateAll := false |},
     set_heap (<[1%positive := {| sql.Isolation := 6%Z;
                                  sql.ReadOnly := true |}]>
                 {[ 1%positive := sql.zeroTxOptions ]})
       {| st_heap := {[ 1%positive := sql.zeroTxOptions ]};
          st_world := mkScript None None None None |}).
Proof.
  pose proof (options_after_WithTxOptions_write_through (H := mock)
                6%Z 1%positive sql.zeroTxOptions zeroConfig
                {| st_heap := {[ 1%positive := sql.zeroTxOptions ]};
                   st_world := mkScript None None None None |} eq_refl) as W.
  cbn [st_heap DeallocateAll zeroConfig] in W. exact W.
Defined.

Lemma cleanup_follows_begin_witness :
  trace (Options.ExecuteContext tt tt returns_one
           (builtin <$> [BTxOptions None; BDeallocateAll])
           (script None None None None)) !! 1
  = Some (if existsb is_dealloc [BTxOptions None; BDeallocateAll]
          then EvExec 1 tt "DEALLOCATE ALL"
          else EvCall 1)
  ∧ count is_exec
      (trace (Options.ExecuteContext tt tt returns_one
                (builtin <$> [BTxOptions None; BDeallocateAll])
                (script None None None None)))
    = (if existsb is_dealloc [BTxOptions None; BDeallocateAll] then 1 else 0).
Proof.
  exact (cleanup_follows_begin (H := mock)
           tt tt returns_one [BTxOptions None; BDeallocateAll]
           (script None None None None)
           {| TxOptions := None; DeallocateAll := true |} _ _ 1
           eq_refl eq_refl).
Defined.

Lemma ExecuteWithConfig_commit_failure_witness :
  Struct.ExecuteWithConfig tt None returns_one
    (script None None None (Some bad_connection))
  = (Returned 1%Z
       (Some (Errorf_w "failed to commit transaction: " bad_connection)),
     script None None None (Some bad_connection),
     EvBegin tt Background (TxOptions (or_default None))
       :: cleanup_events (or_default None) Background 1
       ++ [EvCall 1; EvCommit 1])
  ∧ count is_rollback
      (trace (Struct.ExecuteWithConfig tt None returns_one
                (script None None None (Some bad_connection)))) = 0
  ∧ Unwrap (Errorf_w "failed to commit transaction: " bad_connection)
    = Some bad_connection.
Proof.
  exact (ExecuteWithConfig_commit_failure (H := mock)
           tt None returns_one (script None None None (Some bad_connection))
           _ 1 _ _ 1%Z _ bad_connection
           eq_refl eq_refl eq_refl eq_refl).
Defined.

Lemma Legacy_Execute_always_deallocates_witness :
  ∃ rest,
    trace (Legacy.Execute tt returns_one (script None None None None))
    = EvBegin tt Background None
        :: EvExec 1 Background "DEALLOCATE ALL" :: rest.
Proof.
  exact (Legacy_Execute_always_deallocates (H := mock)
           tt returns_one (script None None None None) _ 1 eq_refl).
Defined.

Lemma Legacy_Execute_returns_work_outcome_witness :
  outcome (Legacy.Execute tt returns_one
             (script None None None (Some bad_connection)))
  = Returned 1%Z None
  ∧ trace (Legacy.Execute tt returns_one
             (script None None None (Some bad_connection)))
    = [EvBegin tt Background None; EvExec 1 Background "DEALLOCATE ALL";
       EvCall 1; EvCommit 1]
  ∧ final (Legacy.Execute tt returns_one
             (script None None None (Some bad_connection)))
    = (Commit 1 (script None None None (Some bad_connection))).1.
Proof.
  exact (Legacy_Execute_returns_work_outcome (H := mock)
           tt returns_one (script None None None (Some bad_connection))
           _ 1 _ _ (Returned 1%Z None) eq_refl eq_refl eq_refl).
Defined.

Lemma Struct_error_cause_witness :
  (∃ s1 cause,
      BeginTxx tt tt (TxOptions (or_default None))
        (script None None None (Some bad_connection)) = (s1, inr cause)
      ∧ Unwrap (Errorf_w "failed to commit transaction: " bad_connection)
        = Some cause
      ∧ String.prefix "failed to begin transaction: "
          (Error (Errorf_w "failed to commit transaction: " bad_connection))
        = true)
  ∨ (∃ tx s1 s2 cause,
      ExecContext tx tt "DEALLOCATE ALL" s1 = (s2, Some cause)
      ∧ Unwrap (Errorf_w "failed to commit transaction: " bad_connection)
        = Some cause
      ∧ String.prefix "failed to deallocate prepared statements: "
          (Error (Errorf_w "failed to commit transaction: " bad_connection))
        = true)
  ∨ (∃ tx s2 s3 cause,
      returns_one tx s2 = (s3, Returned 1%Z (Some cause))
      ∧ (Errorf_w "failed to commit transaction: " bad_connection = cause
         ∨ Unwrap (Errorf_w "failed to commit transaction: " bad_connection)
           = Some cause
           ∧ String.prefix "transaction rollback failed: "
               (Error (Errorf_w "failed to commit transaction: "
                         bad_connection))
             = true))
  ∨ (∃ tx s3 s4 cause,
      returns_one tx s3 = (s4, Returned 1%Z None)
      ∧ Commit tx s4
        = (final (Struct.ExecuteContext tt tt None returns_one
                    (script None None None (Some bad_connection))),
           Some cause)
      ∧ Unwrap (Errorf_w "failed to commit transaction: " bad_connection)
        = Some cause
      ∧ String.prefix "failed to commit transaction: "
          (Error (Errorf_w "failed to commit transaction: " bad_connection))
        = true).
Proof.
  exact (Struct_error_cause (H := mock)
           tt tt None returns_one
           (script None None None (Some bad_connection))
           1%Z (Errorf_w "failed to commit transaction: " bad_connection)
           eq_refl).
Defined.
